(** * Audio captioning service: request handlers of the four service variants

    Shallow embedding of the request paths of
      - [src/api/python/main.py]          (module [Main]),
      - [src/app/api/route.py]            (module [Route]),
      - [src/streamlit_app.py]            (module [StreamlitApp]),
      - [src/api/python/streamlit_app.py] (module [ApiStreamlit]).

    The handlers are Python functions working on the file system, on an
    uploaded file and on a captioning model.  They are embedded in a small
    state-and-exception monad: the state holds the files on disk and the
    local variables [temp_path] and [wav_path] that a [finally] block reads
    after an exception; every external effect is also recorded as an event.
    What the libraries decide (random scratch names, the decoder, the model,
    the network) is taken from a [Runtime] record and from the model object,
    so every statement holds for all behaviours of these collaborators in
    which they return or raise an [Exception].
    Calls to the logger have no effect on any of this and are left out. *)

From Stdlib Require Import ZArith QArith_base String Ascii List.
From Stdlib Require Strings.Byte.
From stdpp Require Import base gmap strings list fin_maps pretty.

Set Warnings "-register-all".

Local Open Scope string_scope.
Local Open Scope Z_scope.

(** ** Python values and exceptions *)

Definition bytes := list Init.Byte.byte.

(** The part of Python's value universe a captioning call can hand back. *)
Inductive pyval : Type :=
| PyNone
| PyBool (b : bool)
| PyInt (z : Z)
| PyStr (s : string)
| PyList (l : list pyval)
| PyTuple (l : list pyval).

(** Exceptions: FastAPI's [HTTPException] and every other subclass of
    [Exception], the latter with its class name and its [str()].  What is
    raised outside [Exception] (a cancelled task, a keyboard interrupt) is
    not in this type: the statements below are about the runs in which the
    collaborators return or raise an [Exception]. *)
Inductive Exn : Type :=
| HTTPException (status_code : Z) (detail : string)
| PyException (cls : string) (msg : string).

Inductive Outcome (A : Type) : Type :=
| Return (a : A)
| Raise (e : Exn).
Arguments Return {A} a.
Arguments Raise {A} e.

(** [bool(v)]: Python truthiness. *)
Definition py_bool (v : pyval) : bool :=
  match v with
  | PyNone => false
  | PyBool b => b
  | PyInt z => negb (z =? 0)
  | PyStr s => negb (String.eqb s "")
  | PyList l => match l with [] => false | _ => true end
  | PyTuple l => match l with [] => false | _ => true end
  end.

(** [isinstance(v, list)]. *)
Definition isinstance_list (v : pyval) : bool :=
  match v with PyList _ => true | _ => false end.

(** [v[0]]. *)
Definition py_getitem0 (v : pyval) : Outcome pyval :=
  match v with
  | PyList (x :: _) => Return x
  | PyTuple (x :: _) => Return x
  | PyList [] => Raise (PyException "IndexError" "list index out of range")
  | PyTuple [] => Raise (PyException "IndexError" "tuple index out of range")
  | PyStr (String c _) => Return (PyStr (String c ""))
  | PyStr "" => Raise (PyException "IndexError" "string index out of range")
  | PyNone => Raise (PyException "TypeError" "'NoneType' object is not subscriptable")
  | PyBool _ => Raise (PyException "TypeError" "'bool' object is not subscriptable")
  | PyInt _ => Raise (PyException "TypeError" "'int' object is not subscriptable")
  end.

(** [s.startswith(p)]. *)
Definition startswith (s p : string) : bool := String.prefix p s.

(** [s.endswith(p)]: [p] is [s] or a suffix of the tail of [s]. *)
Fixpoint endswith (s p : string) : bool :=
  String.eqb s p
  || match s with
     | "" => false
     | String _ s' => endswith s' p
     end.

(** Lower-casing of the ASCII letters, every other byte left as it is: what
    [str.lower()] does on ASCII text.  The handlers take [str.lower()] from
    the runtime (field [str_lower]); this function is the one the sample
    runtimes, whose file names are ASCII, put there. *)
Definition lower_ascii (c : ascii) : ascii :=
  let n := nat_of_ascii c in
  if ((65 <=? n) && (n <=? 90))%nat then ascii_of_nat (n + 32) else c.

Fixpoint lower (s : string) : string :=
  match s with
  | "" => ""
  | String c s' => String (lower_ascii c) (lower s')
  end.

(** [s.rfind(c)] for a one-character [c]: the last index of [c], or [-1]. *)
Fixpoint rfind_from (i : Z) (c : ascii) (s : string) : Z :=
  match s with
  | "" => -1
  | String d s' =>
      let r := rfind_from (i + 1) c s' in
      if r =? -1 then (if Ascii.eqb d c then i else -1) else r
  end.

Definition rfind (c : ascii) (s : string) : Z := rfind_from 0 c s.

(** [p[:i]] and [p[i:]] for [0 <= i]. *)
Definition slice_to (i : Z) (p : string) : string := substring 0 (Z.to_nat i) p.
Definition slice_from (i : Z) (p : string) : string :=
  substring (Z.to_nat i) (String.length p - Z.to_nat i) p.

(** The loop of [genericpath._splitext]: is there a character other than the
    dot between [filenameIndex] and [dotIndex]?  [n] bounds the iterations. *)
Fixpoint splitext_loop (n : nat) (filenameIndex dotIndex : Z) (p : string) : bool :=
  match n with
  | O => false
  | S n' =>
      if filenameIndex <? dotIndex then
        match String.get (Z.to_nat filenameIndex) p with
        | Some c => if Ascii.eqb c "." then splitext_loop n' (filenameIndex + 1) dotIndex p
                    else true
        | None => true
        end
      else false
  end.

(** [os.path.splitext(p)] of [posixpath] (separator [/], no alternative
    separator): leading dots of the last component do not start an extension. *)
Definition splitext (p : string) : string * string :=
  let sepIndex := rfind "/" p in
  let dotIndex := rfind "." p in
  if (sepIndex <? dotIndex)
     && splitext_loop (Z.to_nat (dotIndex - sepIndex)) (sepIndex + 1) dotIndex p
  then (slice_to dotIndex p, slice_from dotIndex p)
  else (p, "").

(** ** Files, events and the handler monad *)

(** Decoding parameters of one [generate_caption] call. *)
Record DecodingParams : Type := mkParams {
  resample : bool;
  beam_size : Z;
  entry_length : Z;
  temperature : Q
}.

(** External effects of a handler, in the order they happen. *)
Inductive Event : Type :=
| EvMkTemp (path : string)                 (* tempfile created a new file *)
| EvReadUpload                             (* the upload stream was read *)
| EvOpenW (path : string)                  (* open(path, 'wb'): created or truncated *)
| EvWrite (path : string) (data : bytes)   (* data appended to an open file *)
| EvDecode (path : string)                 (* AudioSegment.from_file *)
| EvExport (path : string)                 (* AudioSegment.export *)
| EvUnlink (path : string)                 (* os.unlink *)
| EvGenerate (paths : list string) (params : DecodingParams)
| EvPredict (path : string)
| EvHttpGet (url : option string)          (* requests.get *)
| EvStError (msg : string).                (* st.error *)

(** The state a handler works on: the files on disk and the two local
    variables that [route.py] reads again in its [finally] block. *)
Record State : Type := mkState {
  files : gmap string bytes;
  temp_path : option string;
  wav_path : option string
}.

Definition M (A : Type) : Type := State -> Outcome A * State * list Event.

Definition ret {A} (a : A) : M A := fun st => (Return a, st, []).
Definition raise {A} (e : Exn) : M A := fun st => (Raise e, st, []).

Definition bind {A B} (m : M A) (k : A -> M B) : M B :=
  fun st =>
    match m st with
    | (Return a, st1, t1) => let '(r, st2, t2) := k a st1 in (r, st2, (t1 ++ t2)%list)
    | (Raise e, st1, t1) => (Raise e, st1, t1)
    end.

(** With these instances the handlers are written in stdpp's notation:
    [x ← m; k] for a bound result and [m;; k] for a statement. *)
#[global] Instance M_ret : MRet M := @ret.
#[global] Instance M_bind : MBind M := fun A B k m => bind m k.

(** [try: m except Exception as e: h e]. *)
Definition try_except {A} (m : M A) (h : Exn -> M A) : M A :=
  fun st =>
    match m st with
    | (Raise e, st1, t1) => let '(r, st2, t2) := h e st1 in (r, st2, (t1 ++ t2)%list)
    | done => done
    end.

(** [try: m finally: fin]: [fin] runs on every exit of [m]; an exception of
    [fin] replaces the outcome of [m]. *)
Definition try_finally {A} (m : M A) (fin : M unit) : M A :=
  fun st =>
    let '(r, st1, t1) := m st in
    match fin st1 with
    | (Return _, st2, t2) => (r, st2, (t1 ++ t2)%list)
    | (Raise e, st2, t2) => (Raise e, st2, (t1 ++ t2)%list)
    end.

Definition emit (e : Event) : M unit := fun st => (Return tt, st, [e]).
Definition get_state : M State := fun st => (Return st, st, []).
Definition set_temp_path (p : option string) : M unit :=
  fun st => (Return tt, mkState (files st) p (wav_path st), []).
Definition set_wav_path (p : option string) : M unit :=
  fun st => (Return tt, mkState (files st) (temp_path st) p, []).
Definition lift {A} (o : Outcome A) : M A := fun st => (o, st, []).

(** [os.path.exists(p)] / [Path(p).exists()]. *)
Definition path_exists (p : string) : M bool :=
  fun st => (Return (match files st !! p with Some _ => true | None => false end), st, []).

(** [open(p, 'wb')]: creates [p] or truncates it. *)
Definition open_wb (p : string) : M unit :=
  fun st => (Return tt, mkState (<[p := []]> (files st)) (temp_path st) (wav_path st),
             [EvOpenW p]).

(** [f.write(data)] on a file opened for writing at [p]: appends. *)
Definition write (p : string) (data : bytes) : M unit :=
  fun st => (Return tt,
             mkState (<[p := (default [] (files st !! p) ++ data)%list]> (files st))
                     (temp_path st) (wav_path st),
             [EvWrite p data]).

(** [os.unlink(p)]. *)
Definition unlink (p : string) : M unit :=
  fun st =>
    match files st !! p with
    | Some _ => (Return tt, mkState (delete p (files st)) (temp_path st) (wav_path st),
                 [EvUnlink p])
    | None => (Raise (PyException "FileNotFoundError"
                        ("[Errno 2] No such file or directory: '" ++ p ++ "'")), st, [])
    end.

(** ** The collaborators *)

(** A decoded [pydub.AudioSegment]: its raw samples. *)
Definition AudioSegment := bytes.

(** What [AudioSegment.export] does with its output path: it writes the
    whole file, fails before it opened the path, or fails after it opened
    the path and wrote a part. *)
Inductive ExportOutcome : Type :=
| ExportDone (data : bytes)
| ExportFailsEarly (e : Exn)
| ExportFailsLate (partial : bytes) (e : Exn).

(** What the network answers to one GET: [requests] raises, or there is a
    response whose status may be an error (raised by [raise_for_status]),
    whose body arrives in chunks and whose stream may break after them. *)
Record Response : Type := mkResponse {
  status_error : option Exn;
  chunks : list bytes;
  stream_error : option Exn
}.

Inductive HttpResult : Type :=
| HttpFails (e : Exn)
| HttpAnswers (r : Response).

Record Runtime : Type := mkRuntime {
  str_lower : string -> string;           (* str.lower(), Unicode-aware *)
  tmpdir : string;                        (* tempfile.gettempdir() *)
  tmp_names : list string;                (* the random names tempfile draws, in order *)
  os_open_error : string -> option Exn;   (* the OSError, other than "file exists", with
                                             which the system refuses to create a path:
                                             name too long, no space, no permission *)
  http_str : Z -> string -> string;       (* str() of an HTTPException *)
  py_repr : pyval -> string;              (* str() of a value that is not a str *)
  from_file : string -> bytes -> Outcome AudioSegment;
  export : AudioSegment -> string -> ExportOutcome;
  environ : gmap string string;           (* os.environ *)
  http : string -> HttpResult
}.

(** The msclap model object. It reads the files it is given and returns
    whatever it returns; it does not change the files. *)
Record CLAP : Type := mkCLAP {
  generate_caption : list string -> gmap string bytes -> DecodingParams -> Outcome pyval
}.

(** The model object of [src/api/python/streamlit_app.py]. *)
Record CLAPCap : Type := mkCLAPCap {
  predict : string -> gmap string bytes -> Outcome pyval
}.

(** Starlette's [UploadFile] (and Streamlit's uploaded file): the declared
    name and content type, and what reading the stream yields. *)
Record UploadFile : Type := mkUpload {
  filename : option string;
  content_type : option string;
  content : Outcome bytes
}.

(** [str(e)]. *)
Definition exn_str (rt : Runtime) (e : Exn) : string :=
  match e with
  | HTTPException s d => http_str rt s d
  | PyException _ m => m
  end.

(** [str(v)]. *)
Definition py_str (rt : Runtime) (v : pyval) : string :=
  match v with
  | PyStr s => s
  | _ => py_repr rt v
  end.

(** The candidate loop of [tempfile._mkstemp_inner]: a drawn name whose
    path exists already is skipped; the first other one is created, unless
    the system refuses it with another [OSError], which ends the loop; when
    the names are used up the loop raises [FileExistsError]. *)
Fixpoint mkstemp_inner (fs : gmap string bytes) (dir suffix : string)
    (names : list string) (refuse : string -> option Exn) : Outcome string :=
  match names with
  | [] => Raise (PyException "FileExistsError"
                   "[Errno 17] No usable temporary file name found")
  | n :: names' =>
      let p := dir ++ "/" ++ "tmp" ++ n ++ suffix in
      if bool_decide (fs !! p = None) then
        match refuse p with
        | Some e => Raise e
        | None => Return p
        end
      else mkstemp_inner fs dir suffix names' refuse
  end.

(** [tempfile.NamedTemporaryFile(suffix=suffix, delete=False)]: creates an
    empty file under a new name and yields the name; the file stays on disk
    when the [with] block is left. *)
Definition NamedTemporaryFile (rt : Runtime) (suffix : string) : M string :=
  fun st =>
    match mkstemp_inner (files st) (tmpdir rt) suffix (tmp_names rt) (os_open_error rt) with
    | Return p => (Return p, mkState (<[p := []]> (files st)) (temp_path st) (wav_path st),
                   [EvMkTemp p])
    | Raise e => (Raise e, st, [])
    end.

(** [file.read()] / [shutil.copyfileobj(file, ...)]: reading the upload. *)
Definition read_upload (file : UploadFile) : M bytes :=
  fun st => (content file, st, [EvReadUpload]).

(** [AudioSegment.from_file(p)]. *)
Definition AudioSegment_from_file (rt : Runtime) (p : string) : M AudioSegment :=
  fun st =>
    match files st !! p with
    | Some data => (from_file rt p data, st, [EvDecode p])
    | None => (Raise (PyException "FileNotFoundError"
                        ("[Errno 2] No such file or directory: '" ++ p ++ "'")),
               st, [EvDecode p])
    end.

(** [audio.export(p, format="wav")]. *)
Definition AudioSegment_export (rt : Runtime) (audio : AudioSegment) (p : string) : M unit :=
  fun st =>
    match export rt audio p with
    | ExportDone data =>
        (Return tt, mkState (<[p := data]> (files st)) (temp_path st) (wav_path st),
         [EvExport p; EvOpenW p; EvWrite p data])
    | ExportFailsEarly e => (Raise e, st, [EvExport p])
    | ExportFailsLate partial e =>
        (Raise e, mkState (<[p := partial]> (files st)) (temp_path st) (wav_path st),
         [EvExport p; EvOpenW p; EvWrite p partial])
    end.

(** [model.generate_caption(paths, resample=.., beam_size=.., entry_length=..,
    temperature=..)]. *)
Definition call_generate_caption (m : CLAP) (paths : list string)
    (params : DecodingParams) : M pyval :=
  fun st => (generate_caption m paths (files st) params, st, [EvGenerate paths params]).

(** [model.predict(path)]. *)
Definition call_predict (m : CLAPCap) (path : string) : M pyval :=
  fun st => (predict m path (files st), st, [EvPredict path]).

(** [requests.get(url, ...)]: a URL that is [None] has no scheme. *)
Definition requests_get (rt : Runtime) (url : option string) : M Response :=
  fun st =>
    (match url with
     | None => Raise (PyException "MissingSchema"
                        "Invalid URL 'None': No scheme supplied. Perhaps you meant https://None?")
     | Some u => match http rt u with
                 | HttpFails e => Raise e
                 | HttpAnswers r => Return r
                 end
     end, st, [EvHttpGet url]).

(** [response.raise_for_status()]. *)
Definition raise_for_status (r : Response) : M unit :=
  match status_error r with
  | Some e => raise e
  | None => ret tt
  end.

(** [for chunk in response.iter_content(..): f.write(chunk)]. *)
Fixpoint write_chunks (p : string) (cs : list bytes) : M unit :=
  match cs with
  | [] => ret tt
  | c :: cs' => write p c;; write_chunks p cs'
  end.

Definition iter_content_into (p : string) (r : Response) : M unit :=
  write_chunks p (chunks r);;
  match stream_error r with
  | Some e => raise e
  | None => ret tt
  end.

(** The validation [not captions or not isinstance(captions, list) or not
    captions[0]], with Python's short-circuit evaluation. *)
Definition malformed (captions : pyval) : bool :=
  if negb (py_bool captions) then true
  else if negb (isinstance_list captions) then true
  else match captions with
       | PyList (c0 :: _) => negb (py_bool c0)
       | _ => true
       end.

(** ** src/api/python/main.py *)

Module Main.

Definition model_path : string := "clapcap_weights_2023.pth".

(** The string the source hands to [os.getenv]. *)
Definition model_url_variable : string :=
  "https://github.com/MadeByKit/sound-classifier-next/releases/download/v1.0.0/clapcap_weights_2023.pth".

(** [download_model()]: [requests.get] without streaming fetches the whole
    body, so a stream that breaks makes the call itself raise; the status
    is not checked, and the body is written to the weight file. *)
Definition download_model (rt : Runtime) : M unit :=
  present ← path_exists model_path;
  if negb present then
    let model_url := environ rt !! model_url_variable in
    response ← requests_get rt model_url;
    match stream_error response with Some e => raise e | None => ret tt end;;
    open_wb model_path;;
    write model_path (concat (chunks response))
  else ret tt.

(** [class AudioResponse(BaseModel)]. *)
Record AudioResponse : Type := mkAudioResponse { caption : string }.

(** The statements inside [try:]. *)
Definition process_audio_body (clap_model : CLAP) (rt : Runtime) (file : UploadFile)
  : M AudioResponse :=
  ct ← lift (match content_type file with
             | Some ct => Return ct
             | None => Raise (PyException "AttributeError"
                                "'NoneType' object has no attribute 'startswith'")
             end);
  if negb (startswith ct "audio/") then
    raise (HTTPException 400 "Invalid file type. Please upload an audio file.")
  else
    p ← NamedTemporaryFile rt ".wav";
    data ← read_upload file;
    write p data;;
    set_temp_path (Some p);;
    captions ← call_generate_caption clap_model [p]
    {| resample := true; beam_size := 3; entry_length := 67; temperature := 0.01%Q |};
    unlink p;;
    if malformed captions then
      raise (HTTPException 500 "Failed to generate caption. Please try again.")
    else
      c0 ← lift (py_getitem0 captions);
      ret {| caption := py_str rt c0 |}.

(** [except HTTPException: raise] and [except Exception as e: ...]. *)
Definition process_audio_except (rt : Runtime) (e : Exn) : M AudioResponse :=
  match e with
  | HTTPException _ _ => raise e
  | PyException _ _ =>
      raise (HTTPException 500 ("Error processing audio: " ++ exn_str rt e))
  end.

(** [process_audio(file)]. The global [clap_model] is [None] or the model
    object; [if not clap_model] holds for [None] only. *)
Definition process_audio (clap_model : option CLAP) (rt : Runtime) (file : UploadFile)
  : M AudioResponse :=
  match clap_model with
  | None => raise (HTTPException 503 "Model not initialized. Please try again later.")
  | Some model =>
      try_except (process_audio_body model rt file) (process_audio_except rt)
  end.

End Main.

(** ** src/app/api/route.py *)

Module Route.

Definition MODEL_URL : string :=
  "https://github.com/MadeByKit/sound-classifier-next/releases/download/v1.0.0/clapcap_weights_2023.pth".
Definition MODEL_PATH : string := "clapcap_weights_2023.pth".

Definition download_model (rt : Runtime) : M unit :=
  present ← path_exists MODEL_PATH;
  if negb present then
    try_except
      (response ← requests_get rt (Some MODEL_URL);
       raise_for_status response;;
       open_wb MODEL_PATH;;
       iter_content_into MODEL_PATH response)
      (fun e => raise (PyException "RuntimeError"
                         ("Failed to download model: " ++ exn_str rt e)))
  else ret tt.

(** The dictionary the handler returns: the keys [caption], [industry]
    and [status]. *)
Record CaptionResponse : Type := mkCaptionResponse {
  caption : string;
  industry : option string;
  status : string
}.

(** [os.path.splitext(audio_file.filename)[1].lower()]. *)
Definition file_extension_of (rt : Runtime) (file : UploadFile) : Outcome string :=
  match filename file with
  | Some name => Return (str_lower rt (snd (splitext name)))
  | None => Raise (PyException "TypeError"
                     "expected str, bytes or os.PathLike object, not NoneType")
  end.

(** The statements inside [try:]. *)
Definition process_audio_body (clap_model : CLAP) (rt : Runtime)
    (audio_file : UploadFile) (industry : option string) : M CaptionResponse :=
  file_extension ← lift (file_extension_of rt audio_file);
  p ← NamedTemporaryFile rt file_extension;
  set_temp_path (Some p);;
  open_wb p;;
  data ← read_upload audio_file;
  write p data;;
  audio ← AudioSegment_from_file rt p;
  let wav := p ++ ".wav" in
  set_wav_path (Some wav);;
  AudioSegment_export rt audio wav;;
  unlink p;;
  set_temp_path None;;
  captions ← call_generate_caption clap_model [wav]
    {| resample := true; beam_size := 3; entry_length := 67; temperature := 0.01%Q |};
  if malformed captions then
    raise (HTTPException 500 "Failed to generate caption. Please try again.")
  else
    c0 ← lift (py_getitem0 captions);
    ret {| caption := py_str rt c0; industry := industry; status := "success" |}.

(** [except Exception as e: ...]: the only handler of the [try]. *)
Definition process_audio_except (rt : Runtime) (e : Exn) : M CaptionResponse :=
  raise (HTTPException 500 ("Error processing audio: " ++ exn_str rt e)).

(** [if path and os.path.exists(path): os.unlink(path)]. *)
Definition unlink_if_exists (path : option string) : M unit :=
  match path with
  | Some p =>
      if negb (String.eqb p "") then
        present ← path_exists p;
        if (present : bool) then unlink p else ret tt
      else ret tt
  | None => ret tt
  end.

(** The [finally:] block. *)
Definition process_audio_finally : M unit :=
  st ← get_state;
  unlink_if_exists (temp_path st);;
  st' ← get_state;
  unlink_if_exists (wav_path st').

(** [process_audio(audio_file, industry)]: the guard, the two local
    variables set to [None], then [try] / [except] / [finally]. *)
Definition process_audio (clap_model : option CLAP) (rt : Runtime)
    (audio_file : UploadFile) (industry : option string) : M CaptionResponse :=
  match clap_model with
  | None => raise (HTTPException 503 "Model not initialized. Please try again later.")
  | Some model =>
      set_temp_path None;;
      set_wav_path None;;
      try_finally
        (try_except (process_audio_body model rt audio_file industry)
                    (process_audio_except rt))
        process_audio_finally
  end.

End Route.

(** ** src/streamlit_app.py *)

Module StreamlitApp.

Record AudioResponse : Type := mkAudioResponse { caption : string }.

Definition process_audio_body (model : CLAP) (rt : Runtime) (file : UploadFile)
  : M AudioResponse :=
  p ← NamedTemporaryFile rt ".wav";
  data ← read_upload file;
  write p data;;
  set_temp_path (Some p);;
  captions ← call_generate_caption model [p]
    {| resample := true; beam_size := 3; entry_length := 67; temperature := 0.01%Q |};
  unlink p;;
  if malformed captions then
    raise (HTTPException 500 "Failed to generate caption. Please try again.")
  else
    c0 ← lift (py_getitem0 captions);
    ret {| caption := py_str rt c0 |}.

(** The FastAPI handler; [session_model] is [st.session_state.model]. *)
Definition process_audio (session_model : option CLAP) (rt : Runtime) (file : UploadFile)
  : M AudioResponse :=
  match session_model with
  | None => raise (HTTPException 503 "Model not initialized")
  | Some model =>
      try_except (process_audio_body model rt file)
        (fun e => raise (HTTPException 500 ("Error processing audio: " ++ exn_str rt e)))
  end.

(** [st.session_state.model.generate_caption]: the attribute lookup fails
    on [None]. *)
Definition session_generate_caption (session_model : option CLAP)
    (paths : list string) (params : DecodingParams) : M pyval :=
  match session_model with
  | Some model => call_generate_caption model paths params
  | None => raise (PyException "AttributeError"
                     "'NoneType' object has no attribute 'generate_caption'")
  end.

(** [process_audio_streamlit(audio_file)]: the caption, or [None]. *)
Definition process_audio_streamlit (session_model : option CLAP) (rt : Runtime)
    (audio_file : UploadFile) : M pyval :=
  try_except
    (p ← NamedTemporaryFile rt ".wav";
     data ← read_upload audio_file;
     write p data;;
     set_temp_path (Some p);;
     captions ← session_generate_caption session_model [p]
    {| resample := true; beam_size := 3; entry_length := 67; temperature := 0.01%Q |};
     unlink p;;
     if py_bool captions then lift (py_getitem0 captions) else ret PyNone)
    (fun e => emit (EvStError ("Error processing audio: " ++ exn_str rt e));;
              ret PyNone).

End StreamlitApp.

(** ** src/api/python/streamlit_app.py *)

Module ApiStreamlit.

Definition session_predict (session_model : option CLAPCap) (path : string) : M pyval :=
  match session_model with
  | Some model => call_predict model path
  | None => raise (PyException "AttributeError"
                     "'NoneType' object has no attribute 'predict'")
  end.

(** [process_audio(audio_file)]: the caption, or [None]. *)
Definition process_audio (session_model : option CLAPCap) (rt : Runtime)
    (audio_file : UploadFile) : M pyval :=
  try_except
    (p ← NamedTemporaryFile rt ".wav";
     data ← read_upload audio_file;
     write p data;;
     set_temp_path (Some p);;
     caption ← session_predict session_model p;
     unlink p;;
     ret caption)
    (fun e => emit (EvStError ("Error processing audio: " ++ exn_str rt e));;
              ret PyNone).

End ApiStreamlit.

(** ** The process around the handlers

    The module-level state of [main.py] and [route.py]: the global name
    [clap_model], [os.environ] and the files.  [load_model], [lifespan] and
    the health endpoints work on it. *)

(** A module-level name: bound to a value ([None] or the model object), or
    unbound once [del] has removed it. *)
Inductive Global : Type :=
| Unbound
| Bound (v : option CLAP).

Record Process : Type := mkProcess {
  clap_model : Global;
  os_environ : gmap string string;
  disk : gmap string bytes
}.

(** What [torch] and [msclap] decide: whether CUDA is there, whether
    [from msclap import CLAP] works, and what the constructor
    [CLAP(version=.., use_cuda=.., model_fp=..)] makes of the files. *)
Record Torch : Type := mkTorch {
  cuda_is_available : bool;
  import_msclap : option Exn;
  new_CLAP : string -> bool -> string -> gmap string bytes -> Outcome CLAP
}.

(** Effects of the lifecycle functions, in the order they happen. *)
Inductive LifeEvent : Type :=
| LvGcCollect                          (* gc.collect() *)
| LvEmptyCache                         (* torch.cuda.empty_cache() *)
| LvSetNumThreads (n : Z)              (* torch.set_num_threads(n) *)
| LvNewCLAP (version : string) (use_cuda : bool) (model_fp : string)
| LvIO (e : Event).                    (* an effect of a handler or of download_model *)

Definition L (A : Type) : Type := Process -> Outcome A * Process * list LifeEvent.

Definition lret {A} (a : A) : L A := fun ps => (Return a, ps, []).
Definition lraise {A} (e : Exn) : L A := fun ps => (Raise e, ps, []).

Definition lbind {A B} (m : L A) (k : A -> L B) : L B :=
  fun ps =>
    match m ps with
    | (Return a, ps1, t1) => let '(r, ps2, t2) := k a ps1 in (r, ps2, (t1 ++ t2)%list)
    | (Raise e, ps1, t1) => (Raise e, ps1, t1)
    end.

#[global] Instance L_ret : MRet L := @lret.
#[global] Instance L_bind : MBind L := fun A B k m => lbind m k.

(** [try: m except Exception as e: h e] in the process. *)
Definition ltry_except {A} (m : L A) (h : Exn -> L A) : L A :=
  fun ps =>
    match m ps with
    | (Raise e, ps1, t1) => let '(r, ps2, t2) := h e ps1 in (r, ps2, (t1 ++ t2)%list)
    | done => done
    end.

Definition lemit (e : LifeEvent) : L unit := fun ps => (Return tt, ps, [e]).

(** Reading the global [clap_model]: a [NameError] once it is unbound. *)
Definition read_clap_model : L (option CLAP) :=
  fun ps =>
    match clap_model ps with
    | Bound v => (Return v, ps, [])
    | Unbound => (Raise (PyException "NameError" "name 'clap_model' is not defined"), ps, [])
    end.

(** [clap_model = v]. *)
Definition assign_clap_model (v : option CLAP) : L unit :=
  fun ps => (Return tt, mkProcess (Bound v) (os_environ ps) (disk ps), []).

(** [del clap_model]. *)
Definition del_clap_model : L unit :=
  fun ps =>
    match clap_model ps with
    | Bound _ => (Return tt, mkProcess Unbound (os_environ ps) (disk ps), [])
    | Unbound => (Raise (PyException "NameError" "name 'clap_model' is not defined"), ps, [])
    end.

(** [os.environ[k] = v]. *)
Definition setenv (k v : string) : L unit :=
  fun ps => (Return tt, mkProcess (clap_model ps) (<[k := v]> (os_environ ps)) (disk ps), []).

(** A computation on the files, run in the process with fresh local
    variables. *)
Definition run_io {A} (m : M A) : L A :=
  fun ps =>
    let '(r, st, evs) := m (mkState (disk ps) None None) in
    (r, mkProcess (clap_model ps) (os_environ ps) (files st), LvIO <$> evs).

(** [from msclap import CLAP]. *)
Definition from_msclap_import_CLAP (torch : Torch) : L unit :=
  match import_msclap torch with
  | Some e => lraise e
  | None => lret tt
  end.

(** [CLAP(version=version, use_cuda=use_cuda, model_fp=model_fp)]. *)
Definition CLAP_init (torch : Torch) (version : string) (use_cuda : bool)
    (model_fp : string) : L CLAP :=
  fun ps => (new_CLAP torch version use_cuda model_fp (disk ps), ps,
             [LvNewCLAP version use_cuda model_fp]).

(** [if clap_model is not None: del clap_model; gc.collect();
    torch.cuda.empty_cache()]. *)
Definition release_model : L unit :=
  current ← read_clap_model;
  match current with
  | Some _ => del_clap_model;; lemit LvGcCollect;; lemit LvEmptyCache
  | None => lret tt
  end.

(** [if not use_cuda: torch.set_num_threads(1); os.environ[..] = '1' ...]. *)
Definition limit_cpu_threads (use_cuda : bool) : L unit :=
  if negb use_cuda then
    lemit (LvSetNumThreads 1);;
    setenv "OMP_NUM_THREADS" "1";;
    setenv "MKL_NUM_THREADS" "1"
  else lret tt.

(** *** src/api/python/main.py *)

Module MainApp.

(** [load_model()]: [True] when the model was built, [False] when anything
    raised on the way. *)
Definition load_model (torch : Torch) : L bool :=
  ltry_except
    (release_model;;
     let use_cuda := cuda_is_available torch in
     limit_cpu_threads use_cuda;;
     from_msclap_import_CLAP torch;;
     model ← CLAP_init torch "clapcap" use_cuda "./clapcap_weights_2023.pth";
     assign_clap_model (Some model);;
     mret true)
    (fun _ => mret false).

(** [lifespan(app)] up to its [yield]. *)
Definition lifespan_startup (torch : Torch) : L unit :=
  loaded ← load_model torch;
  if negb loaded then lraise (PyException "Exception" "Failed to load model")
  else mret tt.

(** [lifespan(app)] after its [yield]. *)
Definition lifespan_shutdown : L unit := release_model.

(** The dictionary of [GET /]. *)
Record RootResponse : Type := mkRootResponse {
  message : string;
  endpoints : list (string * string);
  status : string
}.

Definition root : L RootResponse :=
  current ← read_clap_model;
  mret {| message := "Welcome to Toun Audio Classifier API";
          endpoints := [("/api/health", "Check API and model status");
                        ("/api/process-audio", "Process audio file for classification")];
          status := match current with
                    | Some _ => "operational"
                    | None => "model_not_loaded"
                    end |}.

(** The dictionary of [GET /api/health]. *)
Record HealthResponse : Type := mkHealthResponse {
  health_status : string;
  model_loaded : bool;
  cuda_available : bool
}.

Definition health_check (torch : Torch) : L HealthResponse :=
  current ← read_clap_model;
  mret {| health_status := "ok";
          model_loaded := match current with Some _ => true | None => false end;
          cuda_available := cuda_is_available torch |}.

(** [POST /api/process-audio]: the handler, reading the global model. *)
Definition process_audio (rt : Runtime) (file : UploadFile) : L Main.AudioResponse :=
  current ← read_clap_model;
  run_io (Main.process_audio current rt file).

End MainApp.

(** *** src/app/api/route.py *)

Module RouteApp.

(** [load_model()]: as in [main.py], with [download_model()] before the
    model is built. *)
Definition load_model (rt : Runtime) (torch : Torch) : L bool :=
  ltry_except
    (release_model;;
     run_io (Route.download_model rt);;
     let use_cuda := cuda_is_available torch in
     limit_cpu_threads use_cuda;;
     from_msclap_import_CLAP torch;;
     model ← CLAP_init torch "clapcap" use_cuda Route.MODEL_PATH;
     assign_clap_model (Some model);;
     mret true)
    (fun _ => mret false).

(** [lifespan(app)] up to its [yield]. *)
Definition lifespan_startup (rt : Runtime) (torch : Torch) : L unit :=
  loaded ← load_model rt torch;
  if negb loaded then lraise (PyException "Exception" "Failed to load model")
  else mret tt.

(** [lifespan(app)] after its [yield]. *)
Definition lifespan_shutdown : L unit := release_model.

(** The dictionary of [GET /]: it does not look at the model. *)
Record RootResponse : Type := mkRootResponse {
  message : string;
  status : string
}.

Definition root : L RootResponse :=
  mret {| message := "Audio Captioning API is running"; status := "healthy" |}.

(** The dictionary of [GET /health]. *)
Record HealthResponse : Type := mkHealthResponse {
  health_status : string;
  model_loaded : bool;
  cuda_available : bool;
  version : string
}.

Definition health_check (torch : Torch) : L HealthResponse :=
  current ← read_clap_model;
  mret {| health_status := "healthy";
          model_loaded := match current with Some _ => true | None => false end;
          cuda_available := cuda_is_available torch;
          version := "1.0.0" |}.

(** [POST /process-audio]: the handler, reading the global model. *)
Definition process_audio (rt : Runtime) (audio_file : UploadFile)
    (industry : option string) : L Route.CaptionResponse :=
  current ← read_clap_model;
  run_io (Route.process_audio current rt audio_file industry).

End RouteApp.

(** ** Reading a run *)

(** The three components of a run. *)
Definition outcome_of {A} (run : Outcome A * State * list Event) : Outcome A := run.1.1.
Definition state_of {A} (run : Outcome A * State * list Event) : State := run.1.2.
Definition events_of {A} (run : Outcome A * State * list Event) : list Event := run.2.

(** A computation all of whose events satisfy [P], from every state. *)
Definition emits_only (P : Event → Prop) {A} (m : M A) : Prop :=
  ∀ st, Forall P (events_of (m st)).

(** An event that invokes the captioning model. *)
Definition is_model_call (e : Event) : bool :=
  match e with
  | EvGenerate _ _ | EvPredict _ => true
  | _ => false
  end.

(** A [generate_caption] call with resampling requested, beam size 3,
    entry length 67 and temperature 0.01. *)
Definition fixed_decoding (e : Event) : Prop :=
  ∃ paths, e = EvGenerate paths (mkParams true 3 67 (Qmake 1 100)).

Definition model_call_fixed (e : Event) : Prop :=
  is_model_call e = true → fixed_decoding e.

Definition model_call_is_predict (e : Event) : Prop :=
  is_model_call e = true → ∃ path, e = EvPredict path.

(** The files a run created: by [tempfile] or by opening a path for writing. *)
Definition created (q : string) (evs : list Event) : Prop :=
  EvMkTemp q ∈ evs ∨ EvOpenW q ∈ evs.

Definition is_unlink_of (q : string) (e : Event) : bool :=
  match e with
  | EvUnlink p => String.eqb p q
  | _ => false
  end.

(** How often a run deleted [q]. *)
Fixpoint unlink_count (q : string) (evs : list Event) : nat :=
  match evs with
  | [] => 0
  | e :: evs' => ((if is_unlink_of q e then 1 else 0) + unlink_count q evs')%nat
  end.

Definition is_decode (e : Event) : bool :=
  match e with EvDecode _ => true | _ => false end.

Definition is_http_get (e : Event) : bool :=
  match e with EvHttpGet _ => true | _ => false end.

(** Every scratch file a run created carries the extension of [name]. *)
Definition preserves_extension (name : string) (evs : list Event) : Prop :=
  ∀ p, EvMkTemp p ∈ evs → endswith p (splitext name).2 = true.

(** ** The handlers as decision trees

    What [Route.process_audio] and [Main.process_audio] come to, as one
    case distinction over what the collaborators answer.  The lemmas
    [route_process_audio_cases] and [main_process_audio_cases] prove these
    trees equal to the handlers; the properties are then read off them. *)

Definition route_error (rt : Runtime) (e : Exn) : Outcome Route.CaptionResponse :=
  Raise (HTTPException 500 ("Error processing audio: " ++ exn_str rt e)).

Definition route_result (m : CLAP) (rt : Runtime) (file : UploadFile)
    (industry : option string) (st : State)
  : Outcome Route.CaptionResponse * State * list Event :=
  match filename file with
  | None =>
      (route_error rt (PyException "TypeError"
                         "expected str, bytes or os.PathLike object, not NoneType"),
       mkState (files st) None None, [])
  | Some name =>
      match mkstemp_inner (files st) (tmpdir rt) (str_lower rt (splitext name).2)
              (tmp_names rt) (os_open_error rt) with
      | Raise e => (route_error rt e, mkState (files st) None None, [])
      | Return p =>
          let wav := p ++ ".wav" in
          match content file with
          | Raise e =>
              (route_error rt e, mkState (files st) (Some p) None,
               [EvMkTemp p; EvOpenW p; EvReadUpload; EvUnlink p])
          | Return data =>
              match from_file rt p data with
              | Raise e =>
                  (route_error rt e, mkState (files st) (Some p) None,
                   [EvMkTemp p; EvOpenW p; EvReadUpload; EvWrite p data; EvDecode p;
                    EvUnlink p])
              | Return audio =>
                  match export rt audio wav with
                  | ExportFailsEarly e =>
                      (route_error rt e, mkState (delete wav (files st)) (Some p) (Some wav),
                       [EvMkTemp p; EvOpenW p; EvReadUpload; EvWrite p data; EvDecode p;
                        EvExport wav; EvUnlink p]
                       ++ match files st !! wav with
                          | Some _ => [EvUnlink wav]
                          | None => []
                          end)%list
                  | ExportFailsLate partial e =>
                      (route_error rt e, mkState (delete wav (files st)) (Some p) (Some wav),
                       [EvMkTemp p; EvOpenW p; EvReadUpload; EvWrite p data; EvDecode p;
                        EvExport wav; EvOpenW wav; EvWrite wav partial; EvUnlink p;
                        EvUnlink wav])
                  | ExportDone wdata =>
                      let params := mkParams true 3 67 (Qmake 1 100) in
                      let st' := mkState (delete wav (files st)) None (Some wav) in
                      let evs :=
                        [EvMkTemp p; EvOpenW p; EvReadUpload; EvWrite p data; EvDecode p;
                         EvExport wav; EvOpenW wav; EvWrite wav wdata; EvUnlink p;
                         EvGenerate [wav] params; EvUnlink wav] in
                      match generate_caption m [wav] (<[wav := wdata]> (files st)) params with
                      | Raise e => (route_error rt e, st', evs)
                      | Return captions =>
                          if malformed captions then
                            (route_error rt (HTTPException 500
                               "Failed to generate caption. Please try again."), st', evs)
                          else
                            match py_getitem0 captions with
                            | Return c0 =>
                                (Return (Route.mkCaptionResponse (py_str rt c0) industry
                                           "success"), st', evs)
                            | Raise e => (route_error rt e, st', evs)
                            end
                      end
                  end
              end
          end
      end
  end.

Definition main_error (rt : Runtime) (e : Exn) : Outcome Main.AudioResponse :=
  match e with
  | HTTPException _ _ => Raise e
  | PyException _ _ => Raise (HTTPException 500 ("Error processing audio: " ++ exn_str rt e))
  end.

Definition main_result (m : CLAP) (rt : Runtime) (file : UploadFile) (st : State)
  : Outcome Main.AudioResponse * State * list Event :=
  match content_type file with
  | None =>
      (main_error rt (PyException "AttributeError"
                        "'NoneType' object has no attribute 'startswith'"), st, [])
  | Some ct =>
      if negb (startswith ct "audio/") then
        (Raise (HTTPException 400 "Invalid file type. Please upload an audio file."), st, [])
      else
        match mkstemp_inner (files st) (tmpdir rt) ".wav" (tmp_names rt)
                (os_open_error rt) with
        | Raise e => (main_error rt e, st, [])
        | Return p =>
            match content file with
            | Raise e =>
                (main_error rt e,
                 mkState (<[p := []]> (files st)) (temp_path st) (wav_path st),
                 [EvMkTemp p; EvReadUpload])
            | Return data =>
                let params := mkParams true 3 67 (Qmake 1 100) in
                match generate_caption m [p] (<[p := data]> (files st)) params with
                | Raise e =>
                    (main_error rt e,
                     mkState (<[p := data]> (files st)) (Some p) (wav_path st),
                     [EvMkTemp p; EvReadUpload; EvWrite p data; EvGenerate [p] params])
                | Return captions =>
                    let st' := mkState (files st) (Some p) (wav_path st) in
                    let evs := [EvMkTemp p; EvReadUpload; EvWrite p data;
                                EvGenerate [p] params; EvUnlink p] in
                    if malformed captions then
                      (Raise (HTTPException 500
                                "Failed to generate caption. Please try again."), st', evs)
                    else
                      match py_getitem0 captions with
                      | Return c0 => (Return (Main.mkAudioResponse (py_str rt c0)), st', evs)
                      | Raise e => (main_error rt e, st', evs)
                      end
                end
            end
        end
  end.

(** ** Concrete collaborators and requests *)

Definition empty_state : State := mkState ∅ None None.

(** A runtime whose decoder and encoder pass the bytes through, whose
    [HTTPException] prints as Starlette's does, and which has no network. *)
Definition sample_runtime : Runtime := {|
  str_lower := lower;
  tmpdir := "/tmp";
  tmp_names := ["k3x9q2ab"; "w_41mzpd"];
  os_open_error := fun _ => None;
  http_str := fun s d => pretty s ++ ": " ++ d;
  py_repr := fun _ => "<object>";
  from_file := fun _ data => Return data;
  export := fun audio _ => ExportDone audio;
  environ := ∅;
  http := fun _ => HttpFails (PyException "ConnectionError" "Network is unreachable")
|}.

(** The same runtime with a server that delivers the weights in two chunks. *)
Definition online_runtime : Runtime := {|
  str_lower := lower;
  tmpdir := "/tmp";
  tmp_names := ["k3x9q2ab"; "w_41mzpd"];
  os_open_error := fun _ => None;
  http_str := fun s d => pretty s ++ ": " ++ d;
  py_repr := fun _ => "<object>";
  from_file := fun _ data => Return data;
  export := fun audio _ => ExportDone audio;
  environ := ∅;
  http := fun _ => HttpAnswers (mkResponse None [[Byte.x50; Byte.x4b]; [Byte.x03]] None)
|}.

Definition riff : bytes := [Byte.x52; Byte.x49; Byte.x46; Byte.x46].

Definition captioning_model : CLAP :=
  mkCLAP (fun _ _ _ => Return (PyList [PyStr "a dog barking"])).

Definition failing_model : CLAP :=
  mkCLAP (fun _ _ _ => Raise (PyException "RuntimeError" "CUDA out of memory")).

(** A model that answers with the empty list. *)
Definition silent_model : CLAP := mkCLAP (fun _ _ _ => Return (PyList [])).

(** A model that raises an exception whose text is [msg]. *)
Definition raising_model (msg : string) : CLAP :=
  mkCLAP (fun _ _ _ => Raise (PyException "RuntimeError" msg)).

Definition sample_clapcap : CLAPCap :=
  mkCLAPCap (fun _ _ => Return (PyStr "a dog barking")).

Definition wav_upload : UploadFile :=
  mkUpload (Some "bark.wav") (Some "audio/wav") (Return riff).
Definition mp3_upload : UploadFile :=
  mkUpload (Some "song.mp3") (Some "audio/mpeg") (Return riff).
Definition upper_upload : UploadFile :=
  mkUpload (Some "CLIP.MP3") (Some "audio/mpeg") (Return riff).
Definition text_upload : UploadFile :=
  mkUpload (Some "notes.txt") (Some "text/plain") (Return riff).

(** ** Further decision trees and inputs *)

(** The two [download_model] functions as decision trees over what the
    network answers; [route_download_model_cases] and
    [main_download_model_cases] prove them equal to the functions. *)

Definition route_download_error (rt : Runtime) (e : Exn) : Outcome unit :=
  Raise (PyException "RuntimeError" ("Failed to download model: " ++ exn_str rt e)).

Definition route_download_result (rt : Runtime) (st : State)
  : Outcome unit * State * list Event :=
  match files st !! Route.MODEL_PATH with
  | Some _ => (Return tt, st, [])
  | None =>
      let get := EvHttpGet (Some Route.MODEL_URL) in
      match http rt Route.MODEL_URL with
      | HttpFails e => (route_download_error rt e, st, [get])
      | HttpAnswers r =>
          match status_error r with
          | Some e => (route_download_error rt e, st, [get])
          | None =>
              let st' := mkState (<[Route.MODEL_PATH := concat (chunks r)]> (files st))
                           (temp_path st) (wav_path st) in
              let evs := get :: EvOpenW Route.MODEL_PATH
                         :: map (EvWrite Route.MODEL_PATH) (chunks r) in
              match stream_error r with
              | Some e => (route_download_error rt e, st', evs)
              | None => (Return tt, st', evs)
              end
          end
      end
  end.

Definition main_download_result (rt : Runtime) (st : State)
  : Outcome unit * State * list Event :=
  match files st !! Main.model_path with
  | Some _ => (Return tt, st, [])
  | None =>
      match environ rt !! Main.model_url_variable with
      | None =>
          (Raise (PyException "MissingSchema"
                    "Invalid URL 'None': No scheme supplied. Perhaps you meant https://None?"),
           st, [EvHttpGet None])
      | Some url =>
          match http rt url with
          | HttpFails e => (Raise e, st, [EvHttpGet (Some url)])
          | HttpAnswers r =>
              match stream_error r with
              | Some e => (Raise e, st, [EvHttpGet (Some url)])
              | None =>
                  (Return tt,
                   mkState (<[Main.model_path := concat (chunks r)]> (files st))
                     (temp_path st) (wav_path st),
                   [EvHttpGet (Some url); EvOpenW Main.model_path;
                    EvWrite Main.model_path (concat (chunks r))])
              end
          end
      end
  end.

(** A host without CUDA on which [msclap] builds the model from any weights. *)
Definition cpu_torch : Torch := {|
  cuda_is_available := false;
  import_msclap := None;
  new_CLAP := fun _ _ _ _ => Return captioning_model
|}.

(** A host on which the constructor rejects the weights. *)
Definition broken_torch : Torch := {|
  cuda_is_available := false;
  import_msclap := None;
  new_CLAP := fun _ _ _ _ => Raise (PyException "RuntimeError" "invalid weights")
|}.

(** A process that has just been started: the model is [None], nothing is
    on disk. *)
Definition fresh_process : Process := mkProcess (Bound None) ∅ ∅.

(** A server whose stream breaks after the first chunk. *)
Definition flaky_runtime : Runtime := {|
  str_lower := lower;
  tmpdir := "/tmp";
  tmp_names := ["k3x9q2ab"; "w_41mzpd"];
  os_open_error := fun _ => None;
  http_str := fun s d => pretty s ++ ": " ++ d;
  py_repr := fun _ => "<object>";
  from_file := fun _ data => Return data;
  export := fun audio _ => ExportDone audio;
  environ := ∅;
  http := fun _ => HttpAnswers (mkResponse None [[Byte.x50; Byte.x4b]]
                                  (Some (PyException "ChunkedEncodingError"
                                           "Connection broken")))
|}.

(** A runtime whose environment has a variable named by the release URL,
    and a server that answers 404 with an error page. *)
Definition env_runtime : Runtime := {|
  str_lower := lower;
  tmpdir := "/tmp";
  tmp_names := ["k3x9q2ab"; "w_41mzpd"];
  os_open_error := fun _ => None;
  http_str := fun s d => pretty s ++ ": " ++ d;
  py_repr := fun _ => "<object>";
  from_file := fun _ data => Return data;
  export := fun audio _ => ExportDone audio;
  environ := {[ Main.model_url_variable := "https://example.org/weights.pth" ]};
  http := fun _ => HttpAnswers (mkResponse (Some (PyException "HTTPError" "404 Client Error"))
                                  [[Byte.x34; Byte.x30; Byte.x34]] None)
|}.

Definition unnamed_upload : UploadFile :=
  mkUpload None (Some "audio/wav") (Return riff).
Definition untyped_upload : UploadFile :=
  mkUpload (Some "bark.wav") None (Return riff).
(** * Properties *)

(** ** Strings and scratch names *)

Lemma length_append (a b : string) :
  String.length (a ++ b) = (String.length a + String.length b)%nat.
Proof. induction a as [|c a IH]; simpl; [done | by rewrite IH]. Qed.

Lemma append_wav_ne (p : string) : p ≠ p ++ ".wav".
Proof.
  intros H. apply (f_equal String.length) in H.
  rewrite length_append in H. simpl in H. lia.
Qed.

Lemma endswith_spec (s p : string) : endswith s p = true ↔ ∃ stem, s = stem ++ p.
Proof.
  induction s as [|c s IH]; cbn [endswith].
  - rewrite orb_false_r, String.eqb_eq. split.
    + intros <-. by exists "".
    + intros [stem H]. destruct stem; simpl in H; [done | discriminate].
  - rewrite orb_true_iff, String.eqb_eq, IH. split.
    + intros [<- | [stem ->]]; [by exists "" | by exists (String c stem)].
    + intros [[|c' stem] H]; simpl in H; [by left | right].
      injection H as -> ->. by exists stem.
Qed.

Lemma endswith_append (a b : string) : endswith (a ++ b) b = true.
Proof. apply endswith_spec. by exists a. Qed.

Lemma append_assoc (a b c : string) : (a ++ b) ++ c = a ++ (b ++ c).
Proof. induction a as [|x a IH]; [done | exact (f_equal (String x) IH)]. Qed.

(** The name [tempfile] settles on is free, the system did not refuse it,
    and it is the directory, the prefix [tmp], one of the drawn names and
    the suffix. *)
Lemma mkstemp_inner_spec fs dir suffix names refuse p :
  mkstemp_inner fs dir suffix names refuse = Return p →
  fs !! p = None ∧ ∃ n, n ∈ names ∧ p = dir ++ "/" ++ "tmp" ++ n ++ suffix.
Proof.
  induction names as [|n names IH]; simpl; [done|].
  case_bool_decide as Hfree.
  - destruct (refuse _); [done|]. intros [= <-]. split; [done|].
    exists n. split; [left | done].
  - intros H. destruct (IH H) as [? (n' & ? & ?)]. split; [done|].
    exists n'. split; [by right | done].
Qed.

Lemma mkstemp_inner_accepted fs dir suffix names refuse p :
  mkstemp_inner fs dir suffix names refuse = Return p → refuse p = None.
Proof.
  induction names as [|n names IH]; simpl; [done|].
  case_bool_decide as Hfree; [|done].
  match goal with |- context [match refuse ?q with _ => _ end] =>
    destruct (refuse q) eqn:Hrefuse end; [done|]. by intros [= <-].
Qed.

Lemma mkstemp_inner_nonempty fs dir suffix names refuse p :
  mkstemp_inner fs dir suffix names refuse = Return p → String.eqb p "" = false.
Proof.
  intros H. apply mkstemp_inner_spec in H as [_ (n & _ & ->)].
  by destruct dir.
Qed.

Lemma mkstemp_inner_suffix fs dir suffix names refuse p :
  mkstemp_inner fs dir suffix names refuse = Return p → endswith p suffix = true.
Proof.
  intros H. apply mkstemp_inner_spec in H as [_ (n & _ & ->)].
  apply endswith_spec. exists (dir ++ "/" ++ "tmp" ++ n).
  by rewrite !append_assoc.
Qed.

(** [tempfile] finds a name as soon as one drawn name is free, on a system
    that refuses nothing. *)
Lemma mkstemp_inner_finds fs dir suffix names refuse n :
  (∀ q, refuse q = None) →
  n ∈ names → fs !! (dir ++ "/" ++ "tmp" ++ n ++ suffix) = None →
  ∃ p, mkstemp_inner fs dir suffix names refuse = Return p.
Proof.
  intros Hok. induction 1 as [n names|n n' names _ IH]; intros Hfree; simpl.
  - rewrite bool_decide_eq_true_2 by done. rewrite Hok. eauto.
  - case_bool_decide; [rewrite Hok; eauto | by apply IH].
Qed.

(** ** Events of composed computations *)

Section EmitsOnly.
Context (P : Event → Prop).

Lemma emits_only_ret {A} (a : A) : emits_only P (mret a).
Proof. intros st. constructor. Qed.

Lemma emits_only_raise {A} e : emits_only P (@raise A e).
Proof. intros st. constructor. Qed.

Lemma emits_only_lift {A} (o : Outcome A) : emits_only P (lift o).
Proof. intros st. constructor. Qed.

Lemma emits_only_bind {A B} (m : M A) (k : A → M B) :
  emits_only P m → (∀ a, emits_only P (k a)) → emits_only P (m ≫= k).
Proof.
  intros Hm Hk st. specialize (Hm st).
  unfold events_of, mbind, M_bind, bind in *.
  destruct (m st) as [[[a|e] st1] t1]; simpl in *; [|done].
  specialize (Hk a st1). unfold events_of in Hk.
  destruct (k a st1) as [[r st2] t2]; simpl in *.
  by apply Forall_app.
Qed.

Lemma emits_only_try_except {A} (m : M A) h :
  emits_only P m → (∀ e, emits_only P (h e)) → emits_only P (try_except m h).
Proof.
  intros Hm Hh st. specialize (Hm st).
  unfold events_of, try_except in *.
  destruct (m st) as [[[a|e] st1] t1]; simpl in *; [done|].
  specialize (Hh e st1). unfold events_of in Hh.
  destruct (h e st1) as [[r st2] t2]; simpl in *.
  by apply Forall_app.
Qed.

Lemma emits_only_try_finally {A} (m : M A) fin :
  emits_only P m → emits_only P fin → emits_only P (try_finally m fin).
Proof.
  intros Hm Hf st. specialize (Hm st).
  unfold events_of, try_finally in *.
  destruct (m st) as [[r st1] t1]; simpl in *.
  specialize (Hf st1). unfold events_of in Hf.
  destruct (fin st1) as [[[u|e] st2] t2]; simpl in *; by apply Forall_app.
Qed.

Lemma emits_only_step {A} (m : M A) :
  (∀ st, Forall P (m st).2) → emits_only P m.
Proof. done. Qed.
End EmitsOnly.

(** Splits a handler along its binds and handlers, down to the primitives. *)
Ltac emits_only_split :=
  repeat first
    [ apply emits_only_ret | apply emits_only_raise | apply emits_only_lift
    | apply emits_only_bind; [|intros ?]
    | apply emits_only_try_except; [|intros ?]
    | apply emits_only_try_finally
    | case_match ].

(** Runs one primitive and leaves its events, one goal each. *)
Ltac emits_only_prim :=
  apply emits_only_step; intros ?;
  cbv beta delta
    [NamedTemporaryFile read_upload write open_wb unlink set_temp_path set_wav_path
     get_state path_exists emit AudioSegment_from_file AudioSegment_export
     call_generate_caption call_predict requests_get];
  repeat case_match; simpl; repeat constructor.

(** ** Running a handler symbolically *)

Ltac run_unfold :=
  cbv beta delta
    [mbind M_bind bind try_finally try_except lift mret M_ret ret raise emit
     set_temp_path set_wav_path get_state open_wb read_upload write unlink
     path_exists NamedTemporaryFile AudioSegment_from_file AudioSegment_export
     call_generate_caption call_predict requests_get raise_for_status].

Ltac run_step :=
  first
    [ progress rewrite ?lookup_insert_eq, ?lookup_delete_eq
    | rewrite lookup_insert_ne by done
    | rewrite lookup_delete_ne by done
    | match goal with H : _ !! _ = _ |- _ => rewrite H end
    | match goal with H : String.eqb _ _ = _ |- _ => rewrite H end
    | match goal with H : mkstemp_inner _ _ _ _ _ = _ |- _ => rewrite H end
    | progress cbn [negb files temp_path wav_path default id app] ].

Ltac run := run_unfold; repeat run_step.

(** Equality of two file maps built from inserts and deletes. *)
Ltac files_eq :=
  apply map_eq; intros ?;
  repeat (rewrite lookup_insert || rewrite lookup_delete);
  repeat case_decide; subst; congruence.

Ltac same_run := do 2 f_equal; try (f_equal; files_eq).

Lemma route_process_audio_cases m rt file industry st :
  Route.process_audio (Some m) rt file industry st = route_result m rt file industry st.
Proof.
  unfold Route.process_audio, Route.process_audio_body, Route.process_audio_except,
    Route.process_audio_finally, Route.file_extension_of, Route.unlink_if_exists,
    route_result, route_error.
  destruct (filename file) as [name|]; [|done].
  destruct (mkstemp_inner _ _ _ _ _) as [p|e] eqn:Hp; [|by run].
  pose proof (mkstemp_inner_nonempty _ _ _ _ _ _ Hp) as Hne.
  pose proof (mkstemp_inner_spec _ _ _ _ _ _ Hp) as [Hfree _].
  pose proof (append_wav_ne p) as Hwav.
  assert (String.eqb (p ++ ".wav") "" = false) as Hne' by (by destruct p).
  run.
  destruct (content file) as [data|e]; run; [|same_run].
  destruct (from_file rt p data) as [audio|e]; run; [|same_run].
  destruct (export rt audio (p ++ ".wav")) as [wdata|e|partial e]; run.
  - replace (delete p _) with (<[p ++ ".wav" := wdata]> (files st)) by files_eq.
    destruct (generate_caption _ _ _ _) as [captions|e]; run; [|same_run].
    destruct (malformed captions); run; [same_run|].
    destruct (py_getitem0 captions); run; same_run.
  - destruct (files st !! (p ++ ".wav")) eqn:Hw; run; same_run.
  - same_run.
Qed.

Lemma main_process_audio_cases m rt file st :
  Main.process_audio (Some m) rt file st = main_result m rt file st.
Proof.
  unfold Main.process_audio, Main.process_audio_body, Main.process_audio_except,
    main_result, main_error.
  destruct (content_type file) as [ct|]; [|done].
  run. destruct (startswith ct "audio/"); run; [|done].
  destruct (mkstemp_inner _ _ _ _ _) as [p|e] eqn:Hp; [|by destruct e].
  pose proof (mkstemp_inner_spec _ _ _ _ _ _ Hp) as [Hfree _].
  run.
  destruct (content file) as [data|e]; run; [|by destruct e].
  replace (<[p:=data]> (<[p:=[]]> (files st))) with (<[p:=data]> (files st)) by files_eq.
  destruct (generate_caption _ _ _ _) as [captions|e]; run; [|by destruct e].
  destruct (malformed captions); run; [same_run|].
  destruct (py_getitem0 captions) as [c0|e]; run; [|destruct e]; same_run.
Qed.

(** ** The validation of the model's answer *)

(** An answer passes the validation exactly when it is a list whose first
    element is true in Python's sense. *)
Lemma malformed_false captions :
  malformed captions = false ↔ ∃ c0 rest, captions = PyList (c0 :: rest) ∧ py_bool c0 = true.
Proof.
  split.
  - destruct captions as [| | | |[|c0 rest]|]; unfold malformed; simpl;
      repeat case_match; try discriminate.
    intros H. exists c0, rest. split; [done|]. by destruct (py_bool c0).
  - intros (c0 & rest & -> & H). unfold malformed. simpl. by rewrite H.
Qed.

Lemma malformed_empty_list : malformed (PyList []) = true.
Proof. reflexivity. Qed.

Lemma malformed_empty_first rest : malformed (PyList (PyStr "" :: rest)) = true.
Proof. reflexivity. Qed.

Lemma malformed_not_a_list captions : isinstance_list captions = false → malformed captions = true.
Proof. destruct captions; unfold malformed; simpl; intros; repeat case_match; done. Qed.

(** ** The readiness gate *)

(** C2. While the model is not loaded, [process_audio] of [main.py] and of
    [route.py] raises the 503 error at once: the state is untouched and no
    event happened, so the upload was not read, no scratch file was made and
    nothing was decoded or captioned. *)
Theorem process_audio_model_not_loaded rt file industry st :
  Main.process_audio None rt file st
  = (Raise (HTTPException 503 "Model not initialized. Please try again later."), st, [])
  ∧ Route.process_audio None rt file industry st
    = (Raise (HTTPException 503 "Model not initialized. Please try again later."), st, []).
Proof. split; reflexivity. Qed.

(** ** Errors of [main.py] *)

(** C10. In [main.py] an [HTTPException] raised by the statements of the
    [try] block leaves [process_audio] as it is, with its status code and
    its detail; the handler for other exceptions does not touch it. *)
Theorem main_http_exception_propagates m rt file st status detail st' evs :
  Main.process_audio_body m rt file st = (Raise (HTTPException status detail), st', evs) →
  Main.process_audio (Some m) rt file st = (Raise (HTTPException status detail), st', evs).
Proof.
  intros Hbody. unfold Main.process_audio, try_except. rewrite Hbody.
  unfold Main.process_audio_except, raise. by rewrite app_nil_r.
Qed.

Lemma main_http_exception_propagates_witness :
  Main.process_audio_body captioning_model sample_runtime text_upload empty_state
  = (Raise (HTTPException 400 "Invalid file type. Please upload an audio file."),
     empty_state, [])
  ∧ Main.process_audio (Some captioning_model) sample_runtime text_upload empty_state
    = (Raise (HTTPException 400 "Invalid file type. Please upload an audio file."),
       empty_state, []).
Proof.
  split; [reflexivity|].
  apply main_http_exception_propagates. reflexivity.
Defined.

(** Any other exception of the [try] block is answered with the generic
    500 response. *)
Lemma main_other_exception_wrapped m rt file st cls msg st' evs :
  Main.process_audio_body m rt file st = (Raise (PyException cls msg), st', evs) →
  Main.process_audio (Some m) rt file st
  = (Raise (HTTPException 500 ("Error processing audio: " ++ msg)), st', evs).
Proof.
  intros Hbody. unfold Main.process_audio, try_except. rewrite Hbody.
  unfold Main.process_audio_except, raise. by rewrite app_nil_r.
Qed.

(** A declared content type that does not start with [audio/] is answered
    with 400 before anything else happens. *)
Lemma main_rejects_non_audio m rt file st ct :
  content_type file = Some ct → startswith ct "audio/" = false →
  Main.process_audio (Some m) rt file st
  = (Raise (HTTPException 400 "Invalid file type. Please upload an audio file."), st, []).
Proof.
  intros Hct Hprefix. rewrite main_process_audio_cases. unfold main_result.
  by rewrite Hct, Hprefix.
Qed.

(** In [main.py] a malformed answer of the model gives the 500 response
    "Failed to generate caption"; an exception of the model gives the
    generic response, which is a different one. *)
Lemma main_malformed_output m rt file st ct p data captions :
  content_type file = Some ct → startswith ct "audio/" = true →
  mkstemp_inner (files st) (tmpdir rt) ".wav" (tmp_names rt) (os_open_error rt) = Return p →
  content file = Return data →
  generate_caption m [p] (<[p := data]> (files st)) (mkParams true 3 67 (Qmake 1 100))
  = Return captions →
  malformed captions = true →
  outcome_of (Main.process_audio (Some m) rt file st)
  = Raise (HTTPException 500 "Failed to generate caption. Please try again.").
Proof.
  intros Hct Hprefix Hp Hdata Hgen Hbad.
  rewrite main_process_audio_cases. unfold main_result.
  by rewrite Hct, Hprefix, Hp, Hdata, Hgen, Hbad.
Qed.

Lemma main_model_failure m rt file st ct p data cls msg :
  content_type file = Some ct → startswith ct "audio/" = true →
  mkstemp_inner (files st) (tmpdir rt) ".wav" (tmp_names rt) (os_open_error rt) = Return p →
  content file = Return data →
  generate_caption m [p] (<[p := data]> (files st)) (mkParams true 3 67 (Qmake 1 100))
  = Raise (PyException cls msg) →
  outcome_of (Main.process_audio (Some m) rt file st)
  = Raise (HTTPException 500 ("Error processing audio: " ++ msg))
  ∧ outcome_of (Main.process_audio (Some m) rt file st)
    ≠ Raise (HTTPException 500 "Failed to generate caption. Please try again.").
Proof.
  intros Hct Hprefix Hp Hdata Hgen.
  rewrite main_process_audio_cases. unfold main_result.
  rewrite Hct, Hprefix, Hp, Hdata, Hgen. split; [done|]. intros [=].
Qed.

(** ** Errors and answers of [route.py] *)

(** Whatever [route.py] raises once the model is loaded is the generic 500
    response: its detail starts with "Error processing audio: ". *)
Lemma route_raises_generic_error m rt file industry st e :
  outcome_of (Route.process_audio (Some m) rt file industry st) = Raise e →
  ∃ e0, e = HTTPException 500 ("Error processing audio: " ++ exn_str rt e0).
Proof.
  assert (Herr : ∀ x, route_error rt x = Raise e →
                 ∃ e0, e = HTTPException 500 ("Error processing audio: " ++ exn_str rt e0))
    by (intros x [= <-]; by exists x).
  rewrite route_process_audio_cases. unfold route_result, outcome_of.
  repeat case_match; cbn [fst snd]; first [apply Herr | discriminate].
Qed.

(** C5 (what [route.py] does). A model that answers with the empty list and
    a model that raises an exception printing as the validation's
    [HTTPException] give the same run: the validation error of [route.py]
    is caught by its own [except Exception] and leaves as the generic
    response for model failures. *)
Theorem route_malformed_output_reported_as_model_failure rt file industry st :
  Route.process_audio (Some silent_model) rt file industry st
  = Route.process_audio
      (Some (raising_model (http_str rt 500 "Failed to generate caption. Please try again.")))
      rt file industry st
  ∧ outcome_of (Route.process_audio (Some silent_model) rt file industry st)
    ≠ Raise (HTTPException 500 "Failed to generate caption. Please try again.").
Proof.
  split.
  - rewrite !route_process_audio_cases. unfold route_result, silent_model, raising_model.
    cbn [generate_caption]. rewrite malformed_empty_list.
    repeat case_match; done.
  - intros H. apply route_raises_generic_error in H as [e0 [=]].
Qed.

(** C9. When [route.py] answers a request with a caption, the answer carries
    the [industry] field of the request as it came, next to the caption,
    which is the text of the first element the model returned. *)
Theorem route_industry_returned_unchanged m rt file industry st resp st' evs :
  Route.process_audio (Some m) rt file industry st = (Return resp, st', evs) →
  Route.industry resp = industry
  ∧ Route.status resp = "success"
  ∧ ∃ wav fs c0 rest,
      generate_caption m [wav] fs (mkParams true 3 67 (Qmake 1 100))
      = Return (PyList (c0 :: rest))
      ∧ Route.caption resp = py_str rt c0.
Proof.
  rewrite route_process_audio_cases. unfold route_result, route_error.
  repeat case_match; intros [= <- <- <-]; subst. do 2 (split; [done|]).
  match goal with H : malformed _ = false |- _ =>
    apply malformed_false in H as (c0 & rest & -> & _) end.
  match goal with H : py_getitem0 _ = _ |- _ => injection H as <- end.
  eexists _, _, c0, rest. split; [eassumption | done].
Qed.

Lemma route_industry_returned_unchanged_witness :
  Route.process_audio (Some captioning_model) sample_runtime mp3_upload (Some "wildlife")
    empty_state
  = (Return (Route.mkCaptionResponse "a dog barking" (Some "wildlife") "success"),
     mkState ∅ None (Some "/tmp/tmpk3x9q2ab.mp3.wav"),
     [EvMkTemp "/tmp/tmpk3x9q2ab.mp3"; EvOpenW "/tmp/tmpk3x9q2ab.mp3"; EvReadUpload;
      EvWrite "/tmp/tmpk3x9q2ab.mp3" riff; EvDecode "/tmp/tmpk3x9q2ab.mp3";
      EvExport "/tmp/tmpk3x9q2ab.mp3.wav"; EvOpenW "/tmp/tmpk3x9q2ab.mp3.wav";
      EvWrite "/tmp/tmpk3x9q2ab.mp3.wav" riff; EvUnlink "/tmp/tmpk3x9q2ab.mp3";
      EvGenerate ["/tmp/tmpk3x9q2ab.mp3.wav"] (mkParams true 3 67 (Qmake 1 100));
      EvUnlink "/tmp/tmpk3x9q2ab.mp3.wav"])
  ∧ Route.industry (Route.mkCaptionResponse "a dog barking" (Some "wildlife") "success")
    = Some "wildlife".
Proof.
  assert (Hrun : Route.process_audio (Some captioning_model) sample_runtime mp3_upload
                   (Some "wildlife") empty_state
                 = (Return (Route.mkCaptionResponse "a dog barking" (Some "wildlife")
                              "success"),
                    mkState ∅ None (Some "/tmp/tmpk3x9q2ab.mp3.wav"),
                    [EvMkTemp "/tmp/tmpk3x9q2ab.mp3"; EvOpenW "/tmp/tmpk3x9q2ab.mp3";
                     EvReadUpload; EvWrite "/tmp/tmpk3x9q2ab.mp3" riff;
                     EvDecode "/tmp/tmpk3x9q2ab.mp3"; EvExport "/tmp/tmpk3x9q2ab.mp3.wav";
                     EvOpenW "/tmp/tmpk3x9q2ab.mp3.wav";
                     EvWrite "/tmp/tmpk3x9q2ab.mp3.wav" riff;
                     EvUnlink "/tmp/tmpk3x9q2ab.mp3";
                     EvGenerate ["/tmp/tmpk3x9q2ab.mp3.wav"]
                       (mkParams true 3 67 (Qmake 1 100));
                     EvUnlink "/tmp/tmpk3x9q2ab.mp3.wav"]))
    by (vm_compute; reflexivity).
  split; [exact Hrun|].
  exact (proj1 (route_industry_returned_unchanged _ _ _ _ _ _ _ _ Hrun)).
Defined.

(** ** Scratch files

    [route.py] removes what it created in its [finally] block; [main.py]
    removes its scratch file only on the path where the model returned. *)

(** Reads a membership in an explicit event list as a choice of its elements. *)
Ltac elem_of_inv H :=
  repeat first
    [ apply elem_of_nil in H; destruct H
    | apply elem_of_app in H as [H|H]
    | apply elem_of_cons in H as [H|H]; [first [discriminate H | injection H as ->]|] ].

(** After any call of [route.py]'s [process_audio], whatever the outcome,
    every file the call created is gone and was deleted exactly once. *)
Lemma route_scratch_files_removed model rt file industry st r st' evs :
  Route.process_audio model rt file industry st = (r, st', evs) →
  ∀ q, created q evs → files st' !! q = None ∧ unlink_count q evs = 1%nat.
Proof.
  destruct model as [m|].
  2:{ intros [= <- <- <-] q [Hq|Hq]; elem_of_inv Hq. }
  rewrite route_process_audio_cases. unfold route_result.
  destruct (filename file) as [name|].
  2:{ intros [= <- <- <-] q [Hq|Hq]; elem_of_inv Hq. }
  destruct (mkstemp_inner _ _ _ _ _) as [p|e] eqn:Hp.
  2:{ intros [= <- <- <-] q [Hq|Hq]; elem_of_inv Hq. }
  apply mkstemp_inner_spec in Hp as [Hfree _].
  pose proof (append_wav_ne p) as Hne.
  assert (String.eqb (p ++ ".wav") p = false) as Hwp by (by apply String.eqb_neq).
  assert (String.eqb p (p ++ ".wav") = false) as Hpw by (by apply String.eqb_neq).
  cbv zeta.
  repeat case_match; intros [= <- <- <-] q [Hq|Hq]; elem_of_inv Hq;
    cbn [files unlink_count is_unlink_of app];
    rewrite ?String.eqb_refl, ?Hwp, ?Hpw, ?lookup_delete_eq;
    rewrite ?lookup_delete_ne by done; try done.
Qed.

(** In [main.py] the scratch file is still there, and was never deleted,
    whenever the model raises. *)
Lemma main_scratch_file_left m rt file st ct p data e :
  content_type file = Some ct → startswith ct "audio/" = true →
  mkstemp_inner (files st) (tmpdir rt) ".wav" (tmp_names rt) (os_open_error rt) = Return p →
  content file = Return data →
  generate_caption m [p] (<[p := data]> (files st)) (mkParams true 3 67 (Qmake 1 100))
  = Raise e →
  ∃ r st' evs,
    Main.process_audio (Some m) rt file st = (r, st', evs)
    ∧ created p evs ∧ files st' !! p = Some data ∧ unlink_count p evs = 0%nat.
Proof.
  intros Hct Hprefix Hp Hdata Hgen.
  rewrite main_process_audio_cases. unfold main_result.
  rewrite Hct, Hprefix, Hp, Hdata, Hgen. cbn [negb].
  eexists _, _, _. split; [reflexivity|]. split; [left; left|].
  split; [apply lookup_insert_eq | reflexivity].
Qed.

(** The same when reading the upload fails: the empty scratch file stays. *)
Lemma main_scratch_file_left_when_read_fails m rt file st ct p e :
  content_type file = Some ct → startswith ct "audio/" = true →
  mkstemp_inner (files st) (tmpdir rt) ".wav" (tmp_names rt) (os_open_error rt) = Return p →
  content file = Raise e →
  ∃ r st' evs,
    Main.process_audio (Some m) rt file st = (r, st', evs)
    ∧ created p evs ∧ files st' !! p = Some [] ∧ unlink_count p evs = 0%nat.
Proof.
  intros Hct Hprefix Hp Hdata.
  rewrite main_process_audio_cases. unfold main_result.
  rewrite Hct, Hprefix, Hp, Hdata. cbn [negb].
  eexists _, _, _. split; [reflexivity|]. split; [left; left|].
  split; [apply lookup_insert_eq | reflexivity].
Qed.

(** Where the model returned, [main.py] has deleted its scratch file. *)
Lemma main_scratch_file_removed_when_model_returns m rt file st ct p data captions :
  content_type file = Some ct → startswith ct "audio/" = true →
  mkstemp_inner (files st) (tmpdir rt) ".wav" (tmp_names rt) (os_open_error rt) = Return p →
  content file = Return data →
  generate_caption m [p] (<[p := data]> (files st)) (mkParams true 3 67 (Qmake 1 100))
  = Return captions →
  ∃ r st' evs,
    Main.process_audio (Some m) rt file st = (r, st', evs)
    ∧ files st' = files st ∧ unlink_count p evs = 1%nat.
Proof.
  intros Hct Hprefix Hp Hdata Hgen.
  rewrite main_process_audio_cases. unfold main_result.
  rewrite Hct, Hprefix, Hp, Hdata, Hgen. cbn [negb]. cbv zeta.
  repeat case_match; eexists _, _, _; (split; [reflexivity|]);
    cbn [files unlink_count is_unlink_of]; by rewrite String.eqb_refl.
Qed.

(** The text of [process_audio] of [main.py] on a request with an audio
    upload, served by a model that raises: the call ends with the generic
    500 response, the scratch file [/tmp/tmpk3x9q2ab.wav] is still on disk
    with the uploaded bytes, and no event of the call deleted it. *)
Lemma main_scratch_file_left_when_model_raises :
  Main.process_audio (Some failing_model) sample_runtime wav_upload empty_state
  = (Raise (HTTPException 500 "Error processing audio: CUDA out of memory"),
     mkState {["/tmp/tmpk3x9q2ab.wav" := riff]} (Some "/tmp/tmpk3x9q2ab.wav") None,
     [EvMkTemp "/tmp/tmpk3x9q2ab.wav"; EvReadUpload;
      EvWrite "/tmp/tmpk3x9q2ab.wav" riff;
      EvGenerate ["/tmp/tmpk3x9q2ab.wav"] (mkParams true 3 67 (Qmake 1 100))]).
Proof. vm_compute. reflexivity. Qed.

(** C1 (what the handlers of [src/streamlit_app.py] do). The model is
    loaded, the upload could be read and stored in the scratch file [p],
    and the model raises on it. Then [process_audio_streamlit] shows the
    error and returns [None], [process_audio] answers with the generic 500,
    and in both the scratch file [p], which did not exist before the call,
    is still on disk with the uploaded bytes and no event of the call
    deleted it: [os.unlink] comes after the model call only, and there is
    no [finally] as in [route.py]. *)
Theorem streamlit_scratch_file_left_when_model_raises m rt file st p data e :
  mkstemp_inner (files st) (tmpdir rt) ".wav" (tmp_names rt) (os_open_error rt) = Return p →
  content file = Return data →
  generate_caption m [p] (<[p := data]> (files st)) (mkParams true 3 67 (Qmake 1 100))
  = Raise e →
  let st' := mkState (<[p := data]> (files st)) (Some p) (wav_path st) in
  let evs := [EvMkTemp p; EvReadUpload; EvWrite p data;
              EvGenerate [p] (mkParams true 3 67 (Qmake 1 100))] in
  let msg := "Error processing audio: " ++ exn_str rt e in
  StreamlitApp.process_audio_streamlit (Some m) rt file st
  = (Return PyNone, st', (evs ++ [EvStError msg])%list)
  ∧ StreamlitApp.process_audio (Some m) rt file st = (Raise (HTTPException 500 msg), st', evs)
  ∧ files st !! p = None
  ∧ created p evs
  ∧ files st' !! p = Some data
  ∧ unlink_count p (evs ++ [EvStError msg])%list = 0%nat.
Proof.
  intros Hp Hdata Hgen.
  pose proof (mkstemp_inner_spec _ _ _ _ _ _ Hp) as [Hfree _].
  cbv zeta.
  split; [|split; [|split; [done|split; [by left; left|split]]]].
  - unfold StreamlitApp.process_audio_streamlit, StreamlitApp.session_generate_caption.
    run_unfold. rewrite Hp. repeat run_step. rewrite Hdata. repeat run_step.
    unfold bytes in *. rewrite insert_insert_eq, Hgen. repeat run_step. same_run.
  - unfold StreamlitApp.process_audio, StreamlitApp.process_audio_body.
    run_unfold. rewrite Hp. repeat run_step. rewrite Hdata. repeat run_step.
    unfold bytes in *. rewrite insert_insert_eq, Hgen. repeat run_step. same_run.
  - apply lookup_insert_eq.
  - reflexivity.
Qed.

Lemma streamlit_scratch_file_left_when_model_raises_witness :
  StreamlitApp.process_audio_streamlit
    (Some (raising_model "Error opening '/tmp/tmpk3x9q2ab.wav': Format not recognised."))
    sample_runtime wav_upload empty_state
  = (Return PyNone,
     mkState {["/tmp/tmpk3x9q2ab.wav" := riff]} (Some "/tmp/tmpk3x9q2ab.wav") None,
     [EvMkTemp "/tmp/tmpk3x9q2ab.wav"; EvReadUpload;
      EvWrite "/tmp/tmpk3x9q2ab.wav" riff;
      EvGenerate ["/tmp/tmpk3x9q2ab.wav"] (mkParams true 3 67 (Qmake 1 100));
      EvStError "Error processing audio: Error opening '/tmp/tmpk3x9q2ab.wav': Format not recognised."]).
Proof.
  exact (proj1 (streamlit_scratch_file_left_when_model_raises
                  (raising_model "Error opening '/tmp/tmpk3x9q2ab.wav': Format not recognised.")
                  sample_runtime wav_upload empty_state "/tmp/tmpk3x9q2ab.wav" riff
                  (PyException "RuntimeError"
                     "Error opening '/tmp/tmpk3x9q2ab.wav': Format not recognised.")
                  eq_refl eq_refl eq_refl)).
Defined.

(** ** The declared content type *)

(** [route.py] never looks at the declared content type. *)
Lemma route_ignores_content_type model rt name ct ct' body industry st :
  Route.process_audio model rt (mkUpload name ct body) industry st
  = Route.process_audio model rt (mkUpload name ct' body) industry st.
Proof. reflexivity. Qed.

(** In [route.py] every upload that could be read into its scratch file is
    handed to the decoder. *)
Lemma route_decodes_every_upload m rt file industry st name p data :
  filename file = Some name →
  mkstemp_inner (files st) (tmpdir rt) (str_lower rt (splitext name).2) (tmp_names rt)
    (os_open_error rt) = Return p →
  content file = Return data →
  EvDecode p ∈ events_of (Route.process_audio (Some m) rt file industry st).
Proof.
  intros Hname Hp Hdata. rewrite route_process_audio_cases. unfold route_result.
  rewrite Hname, Hp, Hdata. cbv zeta.
  repeat case_match; cbn [events_of snd]; rewrite ?elem_of_app, !elem_of_cons; tauto.
Qed.

(** [main.py] has no decoding step at all. *)
Lemma main_never_decodes model rt file :
  emits_only (λ e, is_decode e = false) (Main.process_audio model rt file).
Proof.
  unfold Main.process_audio, Main.process_audio_body, Main.process_audio_except.
  emits_only_split; emits_only_prim.
Qed.

(** C3 (what [route.py] does). An upload declared as [text/plain] is not
    answered with 400: [route.py] writes it to a scratch file, runs the
    decoder on that file ([EvDecode]) and, the decoder accepting the bytes,
    answers with a caption. *)
Theorem route_text_plain_reaches_decoder :
  Route.process_audio (Some captioning_model) sample_runtime text_upload None empty_state
  = (Return (Route.mkCaptionResponse "a dog barking" None "success"),
     mkState ∅ None (Some "/tmp/tmpk3x9q2ab.txt.wav"),
     [EvMkTemp "/tmp/tmpk3x9q2ab.txt"; EvOpenW "/tmp/tmpk3x9q2ab.txt"; EvReadUpload;
      EvWrite "/tmp/tmpk3x9q2ab.txt" riff; EvDecode "/tmp/tmpk3x9q2ab.txt";
      EvExport "/tmp/tmpk3x9q2ab.txt.wav"; EvOpenW "/tmp/tmpk3x9q2ab.txt.wav";
      EvWrite "/tmp/tmpk3x9q2ab.txt.wav" riff; EvUnlink "/tmp/tmpk3x9q2ab.txt";
      EvGenerate ["/tmp/tmpk3x9q2ab.txt.wav"] (mkParams true 3 67 (Qmake 1 100));
      EvUnlink "/tmp/tmpk3x9q2ab.txt.wav"]).
Proof. vm_compute. reflexivity. Qed.

(** ** Decoding parameters *)

(** C6 (amended). Every [generate_caption] call of the handlers of
    [main.py], [route.py] and [src/streamlit_app.py] is made with
    [resample=True], beam size 3, entry length 67 and temperature 0.01,
    whatever the request; the handler of [src/api/python/streamlit_app.py]
    invokes its model only through [predict(path)], which takes no decoding
    parameter. *)
Theorem generate_caption_calls_use_fixed_parameters :
  (∀ model rt file, emits_only model_call_fixed (Main.process_audio model rt file))
  ∧ (∀ model rt file industry,
       emits_only model_call_fixed (Route.process_audio model rt file industry))
  ∧ (∀ model rt file, emits_only model_call_fixed (StreamlitApp.process_audio model rt file))
  ∧ (∀ model rt file,
       emits_only model_call_fixed (StreamlitApp.process_audio_streamlit model rt file))
  ∧ (∀ model rt file,
       emits_only model_call_is_predict (ApiStreamlit.process_audio model rt file)).
Proof.
  repeat split; intros.
  - unfold Main.process_audio, Main.process_audio_body, Main.process_audio_except.
    emits_only_split; emits_only_prim; first [by intros ? | by intros _; eexists].
  - unfold Route.process_audio, Route.process_audio_body, Route.process_audio_except,
      Route.process_audio_finally, Route.unlink_if_exists.
    emits_only_split; emits_only_prim; first [by intros ? | by intros _; eexists].
  - unfold StreamlitApp.process_audio, StreamlitApp.process_audio_body.
    emits_only_split; emits_only_prim; first [by intros ? | by intros _; eexists].
  - unfold StreamlitApp.process_audio_streamlit, StreamlitApp.session_generate_caption.
    emits_only_split; emits_only_prim; first [by intros ? | by intros _; eexists].
  - unfold ApiStreamlit.process_audio, ApiStreamlit.session_predict.
    emits_only_split; emits_only_prim; first [by intros ? | by intros _; eexists].
Qed.

(** C6 as stated fails on [src/api/python/streamlit_app.py]: its model call
    carries no beam size, length, temperature or resampling request. *)
Lemma api_streamlit_predict_has_no_decoding_parameters :
  ¬ Forall model_call_fixed
      (events_of (ApiStreamlit.process_audio (Some sample_clapcap) sample_runtime wav_upload
                    empty_state)).
Proof.
  assert (Hrun : events_of (ApiStreamlit.process_audio (Some sample_clapcap) sample_runtime
                              wav_upload empty_state)
                 = [EvMkTemp "/tmp/tmpk3x9q2ab.wav"; EvReadUpload;
                    EvWrite "/tmp/tmpk3x9q2ab.wav" riff; EvPredict "/tmp/tmpk3x9q2ab.wav";
                    EvUnlink "/tmp/tmpk3x9q2ab.wav"])
    by (vm_compute; reflexivity).
  rewrite Hrun. intros H.
  do 3 apply Forall_cons in H as [_ H]. apply Forall_cons in H as [H _].
  destruct (H eq_refl) as [paths [=]].
Qed.

(** ** Scratch file names *)

(** C7 (amended). In [route.py], for a request whose upload has a file
    name and for which [tempfile] succeeds in creating a file, at the path
    [p]: the call creates that scratch file and no other with [tempfile];
    [p] did not exist before the call; [p] ends with the extension of the
    uploaded file name as [str.lower()] returns it; and the bytes of an
    upload that could be read are written to [p]. *)
Theorem route_scratch_name_has_lowered_extension m rt file industry st name p :
  filename file = Some name →
  mkstemp_inner (files st) (tmpdir rt) (str_lower rt (splitext name).2) (tmp_names rt)
    (os_open_error rt) = Return p →
  EvMkTemp p ∈ events_of (Route.process_audio (Some m) rt file industry st)
  ∧ (∀ q, EvMkTemp q ∈ events_of (Route.process_audio (Some m) rt file industry st) → q = p)
  ∧ files st !! p = None
  ∧ endswith p (str_lower rt (splitext name).2) = true
  ∧ (∀ data, content file = Return data →
             EvWrite p data ∈ events_of (Route.process_audio (Some m) rt file industry st)).
Proof.
  intros Hname Hp. rewrite route_process_audio_cases. unfold route_result.
  rewrite Hname, Hp.
  pose proof (mkstemp_inner_spec _ _ _ _ _ _ Hp) as [Hfree _].
  pose proof (mkstemp_inner_suffix _ _ _ _ _ _ Hp) as Hsuffix.
  cbv zeta. split; [|split; [|do 2 (split; [done|])]].
  - repeat case_match; cbn [events_of snd]; rewrite ?elem_of_app, !elem_of_cons; tauto.
  - intros q. repeat case_match; cbn [events_of snd]; intros Hin; by elem_of_inv Hin.
  - intros data ->.
    repeat case_match; cbn [events_of snd]; rewrite ?elem_of_app, !elem_of_cons; tauto.
Qed.

Lemma route_scratch_name_has_lowered_extension_witness :
  filename upper_upload = Some "CLIP.MP3"
  ∧ mkstemp_inner (files empty_state) (tmpdir sample_runtime)
      (str_lower sample_runtime (splitext "CLIP.MP3").2) (tmp_names sample_runtime)
      (os_open_error sample_runtime) = Return "/tmp/tmpk3x9q2ab.mp3"
  ∧ EvMkTemp "/tmp/tmpk3x9q2ab.mp3"
      ∈ events_of (Route.process_audio (Some captioning_model) sample_runtime upper_upload
                     None empty_state)
  ∧ endswith "/tmp/tmpk3x9q2ab.mp3" ".mp3" = true
  ∧ EvWrite "/tmp/tmpk3x9q2ab.mp3" riff
      ∈ events_of (Route.process_audio (Some captioning_model) sample_runtime upper_upload
                     None empty_state).
Proof.
  assert (Hp : mkstemp_inner (files empty_state) (tmpdir sample_runtime)
                 (str_lower sample_runtime (splitext "CLIP.MP3").2)
                 (tmp_names sample_runtime) (os_open_error sample_runtime)
               = Return "/tmp/tmpk3x9q2ab.mp3")
    by (vm_compute; reflexivity).
  destruct (route_scratch_name_has_lowered_extension
              captioning_model sample_runtime upper_upload None empty_state
              "CLIP.MP3" "/tmp/tmpk3x9q2ab.mp3" eq_refl Hp)
    as (Hmade & _ & _ & Hext & Hwritten).
  split; [reflexivity|]. split; [exact Hp|]. split; [exact Hmade|].
  split; [exact Hext|]. exact (Hwritten riff eq_refl).
Defined.

(** In [route.py] no scratch file is made for an upload without a file name
    or when [tempfile] fails: a scratch file that was made is the one
    [tempfile] settled on. *)
Lemma route_creates_scratch_file m rt file industry st p :
  EvMkTemp p ∈ events_of (Route.process_audio (Some m) rt file industry st) →
  ∃ name, filename file = Some name
          ∧ mkstemp_inner (files st) (tmpdir rt) (str_lower rt (splitext name).2)
              (tmp_names rt) (os_open_error rt) = Return p.
Proof.
  rewrite route_process_audio_cases. unfold route_result.
  destruct (filename file) as [name|]; [|intros Hin; elem_of_inv Hin].
  destruct (mkstemp_inner _ _ _ _ _) as [p'|e] eqn:Hp; [|intros Hin; elem_of_inv Hin].
  cbv zeta. intros Hin. exists name. split; [done|]. f_equal.
  revert Hin. repeat case_match; cbn [events_of snd]; intros Hin; by elem_of_inv Hin.
Qed.

(** [main.py] names its scratch file [.wav], whatever was uploaded. *)
Lemma main_scratch_name_ends_in_wav m rt file st p :
  EvMkTemp p ∈ events_of (Main.process_audio (Some m) rt file st) →
  files st !! p = None ∧ endswith p ".wav" = true.
Proof.
  rewrite main_process_audio_cases. unfold main_result.
  destruct (mkstemp_inner _ _ _ _ _) as [p'|e] eqn:Hp.
  2:{ repeat case_match; cbn [events_of snd]; intros Hin; elem_of_inv Hin. }
  pose proof (mkstemp_inner_spec _ _ _ _ _ _ Hp) as [Hfree _].
  pose proof (mkstemp_inner_suffix _ _ _ _ _ _ Hp) as Hsuffix.
  cbv zeta.
  repeat case_match; cbn [events_of snd]; intros Hin; by elem_of_inv Hin.
Qed.

(** C7 as stated fails: [main.py] stores [song.mp3] under a name ending in
    [.wav], and [route.py] stores [CLIP.MP3] under a name ending in [.mp3]. *)
Lemma scratch_name_extension_not_preserved :
  ¬ preserves_extension "song.mp3"
      (events_of (Main.process_audio (Some captioning_model) sample_runtime mp3_upload
                    empty_state))
  ∧ ¬ preserves_extension "CLIP.MP3"
        (events_of (Route.process_audio (Some captioning_model) sample_runtime upper_upload
                      None empty_state)).
Proof.
  split; intros H.
  - specialize (H "/tmp/tmpk3x9q2ab.wav"). vm_compute in H.
    assert (false = true) by (apply H; left). discriminate.
  - specialize (H "/tmp/tmpk3x9q2ab.mp3"). vm_compute in H.
    assert (false = true) by (apply H; left). discriminate.
Qed.

(** ** Fetching the weights *)

(** The text of [download_model] of [main.py]: with no weight file on disk
    and no environment variable named by the release URL, it asks
    [requests.get] for the URL [None]: the call raises, nothing is fetched
    from the release URL and no weight file is written. *)
Lemma main_download_model_requests_no_url rt st :
  files st !! Main.model_path = None →
  environ rt !! Main.model_url_variable = None →
  Main.download_model rt st
  = (Raise (PyException "MissingSchema"
              "Invalid URL 'None': No scheme supplied. Perhaps you meant https://None?"),
     st, [EvHttpGet None]).
Proof.
  intros Habsent Hunset. unfold Main.download_model. by run.
Qed.

Lemma main_download_model_requests_no_url_witness :
  files empty_state !! Main.model_path = None
  ∧ environ sample_runtime !! Main.model_url_variable = None
  ∧ Main.download_model sample_runtime empty_state
    = (Raise (PyException "MissingSchema"
                "Invalid URL 'None': No scheme supplied. Perhaps you meant https://None?"),
       empty_state, [EvHttpGet None]).
Proof.
  split; [reflexivity|]. split; [reflexivity|].
  apply main_download_model_requests_no_url; reflexivity.
Defined.

(** The only URL [main.py] ever requests is the value of that variable. *)
Lemma main_download_model_url rt :
  emits_only (λ e, is_http_get e = true → e = EvHttpGet (environ rt !! Main.model_url_variable))
    (Main.download_model rt).
Proof.
  unfold Main.download_model.
  emits_only_split; emits_only_prim; by intros ?.
Qed.

(** Writing the chunks of a response appends them to the open file. *)
Lemma write_chunks_run p cs st d :
  files st !! p = Some d →
  write_chunks p cs st
  = (Return tt, mkState (<[p := (d ++ concat cs)%list]> (files st)) (temp_path st) (wav_path st),
     map (EvWrite p) cs).
Proof.
  revert st d. induction cs as [|c cs IH]; intros st d Hd; cbn [write_chunks concat map].
  - rewrite app_nil_r, insert_id by done. by destruct st.
  - run. erewrite IH by apply lookup_insert_eq. cbn [files temp_path wav_path].
    rewrite insert_insert_eq, app_assoc. done.
Qed.

(** With the weight file on disk, [download_model] does nothing, in both
    variants. *)
Lemma route_download_model_present rt st :
  is_Some (files st !! Route.MODEL_PATH) → Route.download_model rt st = (Return tt, st, []).
Proof. intros [d Hd]. unfold Route.download_model. by run. Qed.


Lemma emits_only_write_chunks (P : Event → Prop) p cs :
  (∀ c, P (EvWrite p c)) → emits_only P (write_chunks p cs).
Proof.
  intros HP. induction cs as [|c cs IH]; cbn [write_chunks].
  - apply emits_only_ret.
  - apply emits_only_bind; [|done]. intros st. repeat constructor. apply HP.
Qed.

(** [route.py] requests the release URL and nothing else, and only when the
    weight file is missing. *)
Lemma route_download_model_url rt :
  emits_only (λ e, is_http_get e = true → e = EvHttpGet (Some Route.MODEL_URL))
    (Route.download_model rt).
Proof.
  unfold Route.download_model, iter_content_into, raise_for_status.
  emits_only_split;
    first [ apply emits_only_write_chunks; by intros ? | emits_only_prim; by intros ? ].
Qed.

Lemma route_download_model_fetch rt st url :
  EvHttpGet url ∈ events_of (Route.download_model rt st) →
  files st !! Route.MODEL_PATH = None ∧ url = Some Route.MODEL_URL.
Proof.
  intros H. split.
  - destruct (files st !! Route.MODEL_PATH) as [d|] eqn:Hd; [|done].
    rewrite route_download_model_present in H by eauto. by apply elem_of_nil in H.
  - pose proof (route_download_model_url rt st) as Hall.
    rewrite Forall_forall in Hall. specialize (Hall _ H eq_refl). by injection Hall.
Qed.








(** * Further properties *)

(** A run is the triple of its outcome, its state and its events. *)
Lemma surjective_pairing3 {A B C} (x : A * B * C) : x = (x.1.1, x.1.2, x.2).
Proof. by destruct x as [[? ?] ?]. Qed.

(** ** [download_model] *)

Lemma route_download_model_cases rt st :
  Route.download_model rt st = route_download_result rt st.
Proof.
  unfold Route.download_model, iter_content_into, route_download_result,
    route_download_error.
  destruct (files st !! Route.MODEL_PATH) as [d|] eqn:Hd; [by run|].
  run. destruct (http rt Route.MODEL_URL) as [e|r]; run; [done|].
  destruct (status_error r); run; [done|].
  rewrite (write_chunks_run _ _ _ []) by apply lookup_insert_eq. run.
  rewrite insert_insert_eq.
  destruct (stream_error r); run; by rewrite ?app_nil_r.
Qed.

Lemma main_download_model_cases rt st :
  Main.download_model rt st = main_download_result rt st.
Proof.
  unfold Main.download_model, main_download_result.
  destruct (files st !! Main.model_path) as [d|] eqn:Hd; [by run|].
  run. destruct (environ rt !! Main.model_url_variable) as [url|]; run; [|done].
  destruct (http rt url) as [e|r]; run; [done|].
  destruct (stream_error r); run; [done|].
  by rewrite insert_insert_eq.
Qed.

(** X1. [download_model] of [route.py] sends a request only when the weight
    file is missing, and then to the release URL and to nothing else. *)
Theorem route_download_model_requests_release_url rt st url :
  EvHttpGet url ∈ events_of (Route.download_model rt st) →
  files st !! Route.MODEL_PATH = None ∧ url = Some Route.MODEL_URL.
Proof. apply route_download_model_fetch. Qed.

Lemma route_download_model_requests_release_url_witness :
  EvHttpGet (Some Route.MODEL_URL) ∈ events_of (Route.download_model online_runtime empty_state)
  ∧ files empty_state !! Route.MODEL_PATH = None.
Proof.
  assert (Hin : EvHttpGet (Some Route.MODEL_URL)
                  ∈ events_of (Route.download_model online_runtime empty_state))
    by (vm_compute; left).
  split; [exact Hin|].
  exact (proj1 (route_download_model_requests_release_url _ _ _ Hin)).
Defined.

(** X2. Once [download_model] of [route.py] has returned, running it again
    returns at once: no request, no write, the files as they are. *)
Theorem route_download_model_twice rt st st' evs :
  Route.download_model rt st = (Return tt, st', evs) →
  Route.download_model rt st' = (Return tt, st', []).
Proof.
  rewrite !route_download_model_cases. unfold route_download_result, route_download_error.
  destruct (files st !! Route.MODEL_PATH) eqn:Hd.
  - intros [= <- _]. by rewrite Hd.
  - cbv zeta. repeat case_match; intros [= <- _]; try done;
      cbn [files] in *; by simplify_map_eq.
Qed.

Lemma route_download_model_twice_witness :
  Route.download_model online_runtime empty_state
  = (Return tt,
     mkState {[ Route.MODEL_PATH := [Byte.x50; Byte.x4b; Byte.x03] ]} None None,
     [EvHttpGet (Some Route.MODEL_URL); EvOpenW Route.MODEL_PATH;
      EvWrite Route.MODEL_PATH [Byte.x50; Byte.x4b]; EvWrite Route.MODEL_PATH [Byte.x03]])
  ∧ Route.download_model online_runtime
      (mkState {[ Route.MODEL_PATH := [Byte.x50; Byte.x4b; Byte.x03] ]} None None)
    = (Return tt,
       mkState {[ Route.MODEL_PATH := [Byte.x50; Byte.x4b; Byte.x03] ]} None None, []).
Proof.
  assert (Hrun : Route.download_model online_runtime empty_state
                 = (Return tt,
                    mkState {[ Route.MODEL_PATH := [Byte.x50; Byte.x4b; Byte.x03] ]} None None,
                    [EvHttpGet (Some Route.MODEL_URL); EvOpenW Route.MODEL_PATH;
                     EvWrite Route.MODEL_PATH [Byte.x50; Byte.x4b];
                     EvWrite Route.MODEL_PATH [Byte.x03]]))
    by (vm_compute; reflexivity).
  split; [exact Hrun|].
  exact (route_download_model_twice _ _ _ _ Hrun).
Defined.

(** X3. When the weight file is missing and the server delivers the whole
    body with a good status, [download_model] of [route.py] returns and the
    weight file holds the chunks of the body in the order they came; no
    other file changes. *)
Theorem route_download_model_stores_body rt st r :
  files st !! Route.MODEL_PATH = None →
  http rt Route.MODEL_URL = HttpAnswers r →
  status_error r = None → stream_error r = None →
  ∃ st' evs,
    Route.download_model rt st = (Return tt, st', evs)
    ∧ files st' = <[Route.MODEL_PATH := concat (chunks r)]> (files st).
Proof.
  intros Habsent Hhttp Hstatus Hstream.
  rewrite route_download_model_cases. unfold route_download_result.
  rewrite Habsent, Hhttp, Hstatus, Hstream. cbv zeta. by eexists _, _.
Qed.

Lemma route_download_model_stores_body_witness :
  ∃ st' evs,
    Route.download_model online_runtime empty_state = (Return tt, st', evs)
    ∧ files st' = <[Route.MODEL_PATH := [Byte.x50; Byte.x4b; Byte.x03]]> ∅.
Proof.
  exact (route_download_model_stores_body online_runtime empty_state
           (mkResponse None [[Byte.x50; Byte.x4b]; [Byte.x03]] None)
           eq_refl eq_refl eq_refl eq_refl).
Defined.

(** X4. When the request fails, or the server answers with an error
    status, [download_model] of [route.py] raises [RuntimeError] with the
    text "Failed to download model: " and the cause, and writes nothing:
    the weight file is still missing. *)
Theorem route_download_model_failure_writes_nothing rt st e :
  files st !! Route.MODEL_PATH = None →
  (http rt Route.MODEL_URL = HttpFails e
   ∨ ∃ r, http rt Route.MODEL_URL = HttpAnswers r ∧ status_error r = Some e) →
  Route.download_model rt st
  = (Raise (PyException "RuntimeError" ("Failed to download model: " ++ exn_str rt e)),
     st, [EvHttpGet (Some Route.MODEL_URL)]).
Proof.
  intros Habsent Hfail.
  rewrite route_download_model_cases. unfold route_download_result, route_download_error.
  rewrite Habsent. destruct Hfail as [-> | (r & -> & ->)]; done.
Qed.

Lemma route_download_model_failure_writes_nothing_witness :
  Route.download_model sample_runtime empty_state
  = (Raise (PyException "RuntimeError" "Failed to download model: Network is unreachable"),
     empty_state, [EvHttpGet (Some Route.MODEL_URL)]).
Proof.
  exact (route_download_model_failure_writes_nothing sample_runtime empty_state
           (PyException "ConnectionError" "Network is unreachable")
           eq_refl (or_introl eq_refl)).
Defined.

(** X5. When the stream breaks after some chunks, [download_model] of
    [route.py] raises [RuntimeError] and leaves a weight file holding only
    the chunks that came; the next run finds that file and does not fetch
    again. *)
Theorem route_download_model_broken_stream_leaves_partial_file rt st r e :
  files st !! Route.MODEL_PATH = None →
  http rt Route.MODEL_URL = HttpAnswers r →
  status_error r = None → stream_error r = Some e →
  ∃ st' evs,
    Route.download_model rt st
    = (Raise (PyException "RuntimeError" ("Failed to download model: " ++ exn_str rt e)),
       st', evs)
    ∧ files st' !! Route.MODEL_PATH = Some (concat (chunks r))
    ∧ Route.download_model rt st' = (Return tt, st', []).
Proof.
  intros Habsent Hhttp Hstatus Hstream.
  rewrite route_download_model_cases. unfold route_download_result, route_download_error.
  rewrite Habsent, Hhttp, Hstatus, Hstream. cbv zeta.
  eexists _, _. split; [reflexivity|]. cbn [files]. rewrite lookup_insert_eq.
  split; [done|]. rewrite route_download_model_cases. unfold route_download_result.
  cbn [files]. by rewrite lookup_insert_eq.
Qed.

Lemma route_download_model_broken_stream_leaves_partial_file_witness :
  ∃ st' evs,
    Route.download_model flaky_runtime empty_state
    = (Raise (PyException "RuntimeError" "Failed to download model: Connection broken"),
       st', evs)
    ∧ files st' !! Route.MODEL_PATH = Some [Byte.x50; Byte.x4b]
    ∧ Route.download_model flaky_runtime st' = (Return tt, st', []).
Proof.
  exact (route_download_model_broken_stream_leaves_partial_file flaky_runtime empty_state
           (mkResponse None [[Byte.x50; Byte.x4b]]
              (Some (PyException "ChunkedEncodingError" "Connection broken")))
           (PyException "ChunkedEncodingError" "Connection broken")
           eq_refl eq_refl eq_refl eq_refl).
Defined.

(** X6. [download_model] of [main.py] does not look at the status of the
    answer: when the environment names a URL and the body arrives whole,
    the body becomes the weight file, also when the status is an error. *)
Theorem main_download_model_ignores_status rt st url r :
  files st !! Main.model_path = None →
  environ rt !! Main.model_url_variable = Some url →
  http rt url = HttpAnswers r → stream_error r = None →
  ∃ st' evs,
    Main.download_model rt st = (Return tt, st', evs)
    ∧ files st' !! Main.model_path = Some (concat (chunks r)).
Proof.
  intros Habsent Hurl Hhttp Hstream.
  rewrite main_download_model_cases. unfold main_download_result.
  rewrite Habsent, Hurl, Hhttp, Hstream.
  eexists _, _. split; [reflexivity|]. cbn [files]. apply lookup_insert_eq.
Qed.

Lemma main_download_model_ignores_status_witness :
  status_error (mkResponse (Some (PyException "HTTPError" "404 Client Error"))
                  [[Byte.x34; Byte.x30; Byte.x34]] None)
  = Some (PyException "HTTPError" "404 Client Error")
  ∧ ∃ st' evs,
      Main.download_model env_runtime empty_state = (Return tt, st', evs)
      ∧ files st' !! Main.model_path = Some [Byte.x34; Byte.x30; Byte.x34].
Proof.
  split; [reflexivity|].
  exact (main_download_model_ignores_status env_runtime empty_state
           "https://example.org/weights.pth"
           (mkResponse (Some (PyException "HTTPError" "404 Client Error"))
              [[Byte.x34; Byte.x30; Byte.x34]] None)
           eq_refl eq_refl eq_refl eq_refl).
Defined.

(** ** [process_audio] of [route.py] *)

(** X7. After any call of [process_audio] of [route.py], whatever its
    outcome, every file the call created (the upload's scratch file and the
    converted [.wav]) is gone from the disk and was deleted exactly once. *)
Theorem route_process_audio_leaves_no_scratch_file model rt file industry st r st' evs :
  Route.process_audio model rt file industry st = (r, st', evs) →
  ∀ q, created q evs → files st' !! q = None ∧ unlink_count q evs = 1%nat.
Proof. apply route_scratch_files_removed. Qed.

Lemma route_process_audio_leaves_no_scratch_file_witness :
  created "/tmp/tmpk3x9q2ab.wav.wav"
    (events_of (Route.process_audio (Some failing_model) sample_runtime wav_upload None
                  empty_state))
  ∧ files (state_of (Route.process_audio (Some failing_model) sample_runtime wav_upload None
                       empty_state)) !! "/tmp/tmpk3x9q2ab.wav.wav" = None
  ∧ unlink_count "/tmp/tmpk3x9q2ab.wav.wav"
      (events_of (Route.process_audio (Some failing_model) sample_runtime wav_upload None
                    empty_state)) = 1%nat.
Proof.
  assert (Hmade : created "/tmp/tmpk3x9q2ab.wav.wav"
                    (events_of (Route.process_audio (Some failing_model) sample_runtime
                                  wav_upload None empty_state)))
    by (right; vm_compute; do 6 right; left).
  split; [exact Hmade|].
  exact (route_process_audio_leaves_no_scratch_file
           (Some failing_model) sample_runtime wav_upload None empty_state _ _ _
           (surjective_pairing3 _) _ Hmade).
Defined.

(** X9. A call of [process_audio] of [route.py] changes no file but its
    own: every path other than the scratch path with [.wav] appended holds
    after the call what it held before. *)
Theorem route_process_audio_keeps_other_files model rt file industry st r st' evs :
  Route.process_audio model rt file industry st = (r, st', evs) →
  ∀ q, (∀ p, EvMkTemp p ∈ evs → q ≠ p ++ ".wav") → files st' !! q = files st !! q.
Proof.
  destruct model as [m|]; [|by intros [= _ <- _]].
  rewrite route_process_audio_cases. unfold route_result.
  destruct (filename file) as [name|]; [|by intros [= _ <- _]].
  destruct (mkstemp_inner _ _ _ _ _) as [p|e] eqn:Hp; [|by intros [= _ <- _]].
  cbv zeta. intros Hrun q Hq.
  assert (q ≠ p ++ ".wav") as Hne.
  { apply Hq. revert Hrun. repeat case_match; intros [= _ _ <-]; left. }
  revert Hrun. repeat case_match; intros [= _ <- _]; cbn [files];
    by rewrite ?lookup_delete_ne.
Qed.

Lemma route_process_audio_keeps_other_files_witness :
  files (state_of (Route.process_audio (Some captioning_model) sample_runtime wav_upload None
                     (mkState {[ Route.MODEL_PATH := riff ]} None None)))
    !! Route.MODEL_PATH
  = Some riff.
Proof.
  refine (eq_trans
            (route_process_audio_keeps_other_files
               (Some captioning_model) sample_runtime wav_upload None
               (mkState {[ Route.MODEL_PATH := riff ]} None None) _ _ _
               (surjective_pairing3 _) Route.MODEL_PATH _) _); [|reflexivity].
  intros p Hin.
  assert (Hevs : events_of (Route.process_audio (Some captioning_model) sample_runtime
                              wav_upload None
                              (mkState {[ Route.MODEL_PATH := riff ]} None None))
                 = [EvMkTemp "/tmp/tmpk3x9q2ab.wav"; EvOpenW "/tmp/tmpk3x9q2ab.wav";
                    EvReadUpload; EvWrite "/tmp/tmpk3x9q2ab.wav" riff;
                    EvDecode "/tmp/tmpk3x9q2ab.wav"; EvExport "/tmp/tmpk3x9q2ab.wav.wav";
                    EvOpenW "/tmp/tmpk3x9q2ab.wav.wav";
                    EvWrite "/tmp/tmpk3x9q2ab.wav.wav" riff;
                    EvUnlink "/tmp/tmpk3x9q2ab.wav";
                    EvGenerate ["/tmp/tmpk3x9q2ab.wav.wav"]
                      (mkParams true 3 67 (Qmake 1 100));
                    EvUnlink "/tmp/tmpk3x9q2ab.wav.wav"])
    by (vm_compute; reflexivity).
  unfold events_of in Hevs. rewrite Hevs in Hin. elem_of_inv Hin.
  intros Heq. vm_compute in Heq. discriminate Heq.
Defined.

(** X10. An upload without a file name makes [process_audio] of [route.py]
    fail before anything is created: the answer is the generic 500 with the
    [TypeError] of [os.path.splitext], the files are untouched and no
    event happened. *)
Theorem route_process_audio_without_filename m rt file industry st :
  filename file = None →
  Route.process_audio (Some m) rt file industry st
  = (Raise (HTTPException 500
              "Error processing audio: expected str, bytes or os.PathLike object, not NoneType"),
     mkState (files st) None None, []).
Proof.
  intros Hname. rewrite route_process_audio_cases. unfold route_result. by rewrite Hname.
Qed.

Lemma route_process_audio_without_filename_witness :
  Route.process_audio (Some captioning_model) sample_runtime unnamed_upload None empty_state
  = (Raise (HTTPException 500
              "Error processing audio: expected str, bytes or os.PathLike object, not NoneType"),
     empty_state, []).
Proof.
  exact (route_process_audio_without_filename captioning_model sample_runtime
           unnamed_upload None empty_state eq_refl).
Defined.

(** ** [process_audio] of [main.py] *)

(** X11. [process_audio] of [main.py] answers an upload whose declared
    content type does not start with [audio/] with status 400, before it
    reads the upload or creates a file: the state is untouched and no event
    happened. *)
Theorem main_process_audio_rejects_non_audio m rt file st ct :
  content_type file = Some ct → startswith ct "audio/" = false →
  Main.process_audio (Some m) rt file st
  = (Raise (HTTPException 400 "Invalid file type. Please upload an audio file."), st, []).
Proof. apply main_rejects_non_audio. Qed.

Lemma main_process_audio_rejects_non_audio_witness :
  startswith "text/plain" "audio/" = false
  ∧ Main.process_audio (Some captioning_model) sample_runtime text_upload empty_state
    = (Raise (HTTPException 400 "Invalid file type. Please upload an audio file."),
       empty_state, []).
Proof.
  split; [reflexivity|].
  exact (main_process_audio_rejects_non_audio captioning_model sample_runtime text_upload
           empty_state "text/plain" eq_refl eq_refl).
Defined.

(** X12. An upload that declares no content type at all is not answered
    with 400 by [main.py] but with the generic 500: the test itself raises
    [AttributeError]. Nothing is read or created. *)
Theorem main_process_audio_without_content_type m rt file st :
  content_type file = None →
  Main.process_audio (Some m) rt file st
  = (Raise (HTTPException 500
              "Error processing audio: 'NoneType' object has no attribute 'startswith'"),
     st, []).
Proof.
  intros Hct. rewrite main_process_audio_cases. unfold main_result. by rewrite Hct.
Qed.

Lemma main_process_audio_without_content_type_witness :
  Main.process_audio (Some captioning_model) sample_runtime untyped_upload empty_state
  = (Raise (HTTPException 500
              "Error processing audio: 'NoneType' object has no attribute 'startswith'"),
     empty_state, []).
Proof.
  exact (main_process_audio_without_content_type captioning_model sample_runtime
           untyped_upload empty_state eq_refl).
Defined.

(** X14. When [process_audio] of [main.py] returns, its caption is the text
    of the first element of the list the model returned, that element is
    true in Python's sense (a string is not empty), and the files are what
    they were before the call: the scratch file is gone. *)
Theorem main_process_audio_caption_is_first_element m rt file st resp st' evs :
  Main.process_audio (Some m) rt file st = (Return resp, st', evs) →
  files st' = files st
  ∧ ∃ p fs c0 rest,
      generate_caption m [p] fs (mkParams true 3 67 (Qmake 1 100))
      = Return (PyList (c0 :: rest))
      ∧ py_bool c0 = true
      ∧ Main.caption resp = py_str rt c0.
Proof.
  rewrite main_process_audio_cases. unfold main_result, main_error. cbv zeta.
  repeat case_match; intros [= <- <- <-]; subst. split; [done|].
  match goal with H : malformed _ = false |- _ =>
    apply malformed_false in H as (c0 & rest & -> & Htrue) end.
  match goal with H : py_getitem0 _ = _ |- _ => injection H as <- end.
  eexists _, _, c0, rest. by split; [eassumption|].
Qed.

Lemma main_process_audio_caption_is_first_element_witness :
  Main.process_audio (Some captioning_model) sample_runtime wav_upload empty_state
  = (Return (Main.mkAudioResponse "a dog barking"),
     mkState ∅ (Some "/tmp/tmpk3x9q2ab.wav") None,
     [EvMkTemp "/tmp/tmpk3x9q2ab.wav"; EvReadUpload; EvWrite "/tmp/tmpk3x9q2ab.wav" riff;
      EvGenerate ["/tmp/tmpk3x9q2ab.wav"] (mkParams true 3 67 (Qmake 1 100));
      EvUnlink "/tmp/tmpk3x9q2ab.wav"])
  ∧ files (mkState ∅ (Some "/tmp/tmpk3x9q2ab.wav") None) = files empty_state.
Proof.
  assert (Hrun : Main.process_audio (Some captioning_model) sample_runtime wav_upload
                   empty_state
                 = (Return (Main.mkAudioResponse "a dog barking"),
                    mkState ∅ (Some "/tmp/tmpk3x9q2ab.wav") None,
                    [EvMkTemp "/tmp/tmpk3x9q2ab.wav"; EvReadUpload;
                     EvWrite "/tmp/tmpk3x9q2ab.wav" riff;
                     EvGenerate ["/tmp/tmpk3x9q2ab.wav"] (mkParams true 3 67 (Qmake 1 100));
                     EvUnlink "/tmp/tmpk3x9q2ab.wav"]))
    by (vm_compute; reflexivity).
  split; [exact Hrun|].
  exact (proj1 (main_process_audio_caption_is_first_element _ _ _ _ _ _ _ Hrun)).
Defined.

(** X15. The answer of the model passes the validation of [process_audio]
    exactly when it is a list whose first element is true in Python's
    sense; [None], an empty list, a tuple, a string, and a list that starts
    with an empty string or with [None] are all rejected. *)
Theorem validation_accepts_nonempty_lists_only captions :
  (malformed captions = false
   ↔ ∃ c0 rest, captions = PyList (c0 :: rest) ∧ py_bool c0 = true)
  ∧ malformed PyNone = true
  ∧ malformed (PyList []) = true
  ∧ (∀ l, malformed (PyTuple l) = true)
  ∧ (∀ s, malformed (PyStr s) = true)
  ∧ (∀ rest, malformed (PyList (PyStr "" :: rest)) = true)
  ∧ (∀ rest, malformed (PyList (PyNone :: rest)) = true).
Proof.
  split; [apply malformed_false|].
  repeat split; intros; try reflexivity.
  - apply malformed_not_a_list. reflexivity.
  - apply malformed_not_a_list. reflexivity.
Qed.

(** X16. A scratch file of [process_audio] of [main.py] has a path that did
    not exist before the call and that ends in [.wav], whatever the name of
    the upload. *)
Theorem main_process_audio_scratch_file_is_fresh_wav m rt file st p :
  EvMkTemp p ∈ events_of (Main.process_audio (Some m) rt file st) →
  files st !! p = None ∧ endswith p ".wav" = true.
Proof. apply main_scratch_name_ends_in_wav. Qed.

Lemma main_process_audio_scratch_file_is_fresh_wav_witness :
  EvMkTemp "/tmp/tmpk3x9q2ab.wav"
    ∈ events_of (Main.process_audio (Some captioning_model) sample_runtime mp3_upload
                   empty_state)
  ∧ endswith "/tmp/tmpk3x9q2ab.wav" ".wav" = true.
Proof.
  assert (Hin : EvMkTemp "/tmp/tmpk3x9q2ab.wav"
                  ∈ events_of (Main.process_audio (Some captioning_model) sample_runtime
                                 mp3_upload empty_state))
    by (vm_compute; left).
  split; [exact Hin|].
  exact (proj2 (main_process_audio_scratch_file_is_fresh_wav _ _ _ _ _ Hin)).
Defined.

(** ** [load_model], [lifespan] and the health endpoint *)

Ltac lrun_unfold :=
  cbv beta delta
    [mbind mret L_bind L_ret lbind ltry_except lret lraise lemit read_clap_model
     assign_clap_model del_clap_model setenv run_io from_msclap_import_CLAP CLAP_init
     release_model limit_cpu_threads].

Ltac lrun_step :=
  first
    [ match goal with H : clap_model _ = _ |- _ => rewrite H end
    | match goal with H : import_msclap _ = _ |- _ => rewrite H end
    | match goal with H : cuda_is_available _ = _ |- _ => rewrite H end
    | match goal with H : new_CLAP _ _ _ _ _ = _ |- _ => rewrite H end
    | progress cbn [negb clap_model os_environ disk files temp_path wav_path app
                    fmap list_fmap] ].

Ltac lrun := lrun_unfold; repeat lrun_step.

(** Runs a lifecycle function along the answers of its collaborators, one
    case each. *)
Ltac lcases :=
  repeat
    (repeat lrun_step;
     match goal with
     | |- context [match clap_model ?ps with _ => _ end] =>
         destruct (clap_model ps) as [|[?|]] eqn:?
     | |- context [Route.download_model ?rt ?st] =>
         rewrite (route_download_model_cases rt st);
         unfold route_download_result, route_download_error; cbv zeta;
         cbn [files temp_path wav_path]
     | |- context [match disk ?ps !! ?k with _ => _ end] => destruct (disk ps !! k) eqn:?
     | |- context [match http ?rt ?u with _ => _ end] => destruct (http rt u) eqn:?
     | |- context [match status_error ?r with _ => _ end] =>
         destruct (status_error r) eqn:?
     | |- context [match stream_error ?r with _ => _ end] =>
         destruct (stream_error r) eqn:?
     | |- context [negb (cuda_is_available ?t)] => destruct (cuda_is_available t) eqn:?
     | |- context [match import_msclap ?t with _ => _ end] =>
         destruct (import_msclap t) eqn:?
     | |- context [match new_CLAP ?t ?v ?c ?f ?d with _ => _ end] =>
         destruct (new_CLAP t v c f d) eqn:?
     end).

(** A [load_model] of [route.py] that returned [True] has bound the global
    to a model built from the weight file on disk. *)
Lemma route_load_model_true rt torch ps ps' evs :
  RouteApp.load_model rt torch ps = (Return true, ps', evs) →
  ∃ m, clap_model ps' = Bound (Some m)
       ∧ new_CLAP torch "clapcap" (cuda_is_available torch) Route.MODEL_PATH (disk ps')
         = Return m
       ∧ is_Some (disk ps' !! Route.MODEL_PATH).
Proof.
  unfold RouteApp.load_model. lrun_unfold. lcases;
    intros [= <- <-]; cbn [clap_model disk];
    eexists; (split; [reflexivity|]); (split; [eassumption|]);
    rewrite ?lookup_insert_eq; eauto.
Qed.

(** A [load_model] that returned [False] after the first start left the
    global at [None]. *)
Lemma route_load_model_false rt torch ps ps' evs :
  clap_model ps = Bound None →
  RouteApp.load_model rt torch ps = (Return false, ps', evs) →
  clap_model ps' = Bound None.
Proof.
  intros Hnone. unfold RouteApp.load_model. lrun_unfold. lcases; by intros [= <- <-].
Qed.

Lemma main_load_model_false torch ps ps' evs :
  clap_model ps = Bound None →
  MainApp.load_model torch ps = (Return false, ps', evs) →
  clap_model ps' = Bound None.
Proof.
  intros Hnone. unfold MainApp.load_model. lrun_unfold. lcases; by intros [= <- <-].
Qed.

(** X18. When [load_model] of [route.py] returns [True], the global
    [clap_model] is bound to the model that [CLAP(version='clapcap',
    use_cuda=torch.cuda.is_available(), model_fp='clapcap_weights_2023.pth')]
    built, and the weight file is on disk. *)
Theorem route_load_model_builds_from_weights rt torch ps ps' evs :
  RouteApp.load_model rt torch ps = (Return true, ps', evs) →
  ∃ m, clap_model ps' = Bound (Some m)
       ∧ new_CLAP torch "clapcap" (cuda_is_available torch) Route.MODEL_PATH (disk ps')
         = Return m
       ∧ is_Some (disk ps' !! Route.MODEL_PATH).
Proof. apply route_load_model_true. Qed.

Lemma route_load_model_builds_from_weights_witness :
  RouteApp.load_model online_runtime cpu_torch fresh_process
  = (Return true,
     mkProcess (Bound (Some captioning_model))
       {[ "OMP_NUM_THREADS" := "1"; "MKL_NUM_THREADS" := "1" ]}
       {[ Route.MODEL_PATH := [Byte.x50; Byte.x4b; Byte.x03] ]},
     [LvIO (EvHttpGet (Some Route.MODEL_URL)); LvIO (EvOpenW Route.MODEL_PATH);
      LvIO (EvWrite Route.MODEL_PATH [Byte.x50; Byte.x4b]);
      LvIO (EvWrite Route.MODEL_PATH [Byte.x03]);
      LvSetNumThreads 1; LvNewCLAP "clapcap" false Route.MODEL_PATH])
  ∧ ∃ m, Bound (Some captioning_model) = Bound (Some m).
Proof.
  assert (Hrun : RouteApp.load_model online_runtime cpu_torch fresh_process
                 = (Return true,
                    mkProcess (Bound (Some captioning_model))
                      {[ "OMP_NUM_THREADS" := "1"; "MKL_NUM_THREADS" := "1" ]}
                      {[ Route.MODEL_PATH := [Byte.x50; Byte.x4b; Byte.x03] ]},
                    [LvIO (EvHttpGet (Some Route.MODEL_URL));
                     LvIO (EvOpenW Route.MODEL_PATH);
                     LvIO (EvWrite Route.MODEL_PATH [Byte.x50; Byte.x4b]);
                     LvIO (EvWrite Route.MODEL_PATH [Byte.x03]);
                     LvSetNumThreads 1; LvNewCLAP "clapcap" false Route.MODEL_PATH]))
    by (vm_compute; reflexivity).
  split; [exact Hrun|].
  destruct (route_load_model_builds_from_weights _ _ _ _ _ Hrun) as (m & Hm & _).
  exists m. exact Hm.
Defined.

(** What the handlers do in a process whose global is bound. *)
Lemma route_app_process_audio_bound rt file industry ps v :
  clap_model ps = Bound v →
  (RouteApp.process_audio rt file industry ps).1.1
  = outcome_of (Route.process_audio v rt file industry (mkState (disk ps) None None)).
Proof.
  intros Hv. unfold RouteApp.process_audio, outcome_of. lrun.
  by destruct (Route.process_audio _ _ _ _ _) as [[r st] evs].
Qed.

Lemma main_app_process_audio_bound rt file ps v :
  clap_model ps = Bound v →
  (MainApp.process_audio rt file ps).1.1
  = outcome_of (Main.process_audio v rt file (mkState (disk ps) None None)).
Proof.
  intros Hv. unfold MainApp.process_audio, outcome_of. lrun.
  by destruct (Main.process_audio _ _ _ _) as [[r st] evs].
Qed.

(** X19. When [load_model] of [main.py] returns [False] in a process whose
    model was [None], the model is still [None], and every request to
    [process_audio] is answered with 503. *)
Theorem main_load_model_failure_keeps_gate_closed torch ps ps' evs :
  clap_model ps = Bound None →
  MainApp.load_model torch ps = (Return false, ps', evs) →
  clap_model ps' = Bound None
  ∧ ∀ rt file,
      (MainApp.process_audio rt file ps').1.1
      = Raise (HTTPException 503 "Model not initialized. Please try again later.").
Proof.
  intros Hnone Hload.
  pose proof (main_load_model_false _ _ _ _ Hnone Hload) as Hstill.
  split; [done|]. intros rt file.
  by rewrite (main_app_process_audio_bound _ _ _ _ Hstill).
Qed.

Lemma main_load_model_failure_keeps_gate_closed_witness :
  MainApp.load_model broken_torch fresh_process
  = (Return false,
     mkProcess (Bound None) {[ "OMP_NUM_THREADS" := "1"; "MKL_NUM_THREADS" := "1" ]} ∅,
     [LvSetNumThreads 1; LvNewCLAP "clapcap" false "./clapcap_weights_2023.pth"])
  ∧ (MainApp.process_audio sample_runtime wav_upload
       (mkProcess (Bound None) {[ "OMP_NUM_THREADS" := "1"; "MKL_NUM_THREADS" := "1" ]} ∅)).1.1
    = Raise (HTTPException 503 "Model not initialized. Please try again later.").
Proof.
  assert (Hrun : MainApp.load_model broken_torch fresh_process
                 = (Return false,
                    mkProcess (Bound None)
                      {[ "OMP_NUM_THREADS" := "1"; "MKL_NUM_THREADS" := "1" ]} ∅,
                    [LvSetNumThreads 1;
                     LvNewCLAP "clapcap" false "./clapcap_weights_2023.pth"]))
    by (vm_compute; reflexivity).
  split; [exact Hrun|].
  exact (proj2 (main_load_model_failure_keeps_gate_closed broken_torch fresh_process _ _
                  eq_refl Hrun)
           sample_runtime wav_upload).
Defined.

(** X20. When [load_model] of [main.py] builds the model on a host without
    CUDA, it has called [torch.set_num_threads(1)] and set
    [OMP_NUM_THREADS] and [MKL_NUM_THREADS] to [1] in the environment, and
    the model was built with [use_cuda=False]; with CUDA the environment is
    left as it was, the thread count is not set and the model was built
    with [use_cuda=True]. *)
Theorem main_load_model_configures_cpu torch ps ps' evs :
  MainApp.load_model torch ps = (Return true, ps', evs) →
  if cuda_is_available torch then
    os_environ ps' = os_environ ps
    ∧ (∀ n, LvSetNumThreads n ∉ evs)
    ∧ LvNewCLAP "clapcap" true "./clapcap_weights_2023.pth" ∈ evs
  else
    os_environ ps'
    = <["MKL_NUM_THREADS" := "1"]> (<["OMP_NUM_THREADS" := "1"]> (os_environ ps))
    ∧ LvSetNumThreads 1 ∈ evs
    ∧ LvNewCLAP "clapcap" false "./clapcap_weights_2023.pth" ∈ evs.
Proof.
  unfold MainApp.load_model. lrun_unfold. lcases; intros [= <- <-];
    cbn [os_environ]; (split; [done|]); split;
    rewrite ?elem_of_app, ?elem_of_cons, ?elem_of_nil; try tauto;
    intros n Hin; elem_of_inv Hin.
Qed.

Lemma main_load_model_configures_cpu_witness :
  MainApp.load_model cpu_torch fresh_process
  = (Return true,
     mkProcess (Bound (Some captioning_model))
       {[ "OMP_NUM_THREADS" := "1"; "MKL_NUM_THREADS" := "1" ]} ∅,
     [LvSetNumThreads 1; LvNewCLAP "clapcap" false "./clapcap_weights_2023.pth"])
  ∧ ({[ "OMP_NUM_THREADS" := "1"; "MKL_NUM_THREADS" := "1" ]} : gmap string string)
    = <["MKL_NUM_THREADS" := "1"]> (<["OMP_NUM_THREADS" := "1"]> ∅).
Proof.
  assert (Hrun : MainApp.load_model cpu_torch fresh_process
                 = (Return true,
                    mkProcess (Bound (Some captioning_model))
                      {[ "OMP_NUM_THREADS" := "1"; "MKL_NUM_THREADS" := "1" ]} ∅,
                    [LvSetNumThreads 1;
                     LvNewCLAP "clapcap" false "./clapcap_weights_2023.pth"]))
    by (vm_compute; reflexivity).
  split; [exact Hrun|].
  exact (proj1 (main_load_model_configures_cpu cpu_torch _ _ _ Hrun)).
Defined.

(** X21. When the startup part of [lifespan] of [route.py] completes, the
    model is loaded: no request to [process_audio] is answered with 503,
    and the health endpoint reports [model_loaded] as true. *)
Theorem route_lifespan_startup_opens_gate rt torch ps ps' evs :
  RouteApp.lifespan_startup rt torch ps = (Return tt, ps', evs) →
  (∀ rt' file industry,
     (RouteApp.process_audio rt' file industry ps').1.1
     ≠ Raise (HTTPException 503 "Model not initialized. Please try again later."))
  ∧ ∃ h, (RouteApp.health_check torch ps').1.1 = Return h
         ∧ RouteApp.model_loaded h = true.
Proof.
  unfold RouteApp.lifespan_startup. cbv beta delta [mbind L_bind lbind].
  destruct (RouteApp.load_model rt torch ps) as [[[[|]|e] ps1] t1] eqn:Hload;
    cbn; try discriminate.
  intros [= <- _].
  apply route_load_model_true in Hload as (m & Hm & _). split.
  - intros rt' file industry. rewrite (route_app_process_audio_bound _ _ _ _ _ Hm).
    intros H. apply route_raises_generic_error in H as [cause [=]].
  - unfold RouteApp.health_check. lrun. eexists. split; reflexivity.
Qed.

Lemma route_lifespan_startup_opens_gate_witness :
  RouteApp.lifespan_startup online_runtime cpu_torch fresh_process
  = (Return tt,
     mkProcess (Bound (Some captioning_model))
       {[ "OMP_NUM_THREADS" := "1"; "MKL_NUM_THREADS" := "1" ]}
       {[ Route.MODEL_PATH := [Byte.x50; Byte.x4b; Byte.x03] ]},
     [LvIO (EvHttpGet (Some Route.MODEL_URL)); LvIO (EvOpenW Route.MODEL_PATH);
      LvIO (EvWrite Route.MODEL_PATH [Byte.x50; Byte.x4b]);
      LvIO (EvWrite Route.MODEL_PATH [Byte.x03]);
      LvSetNumThreads 1; LvNewCLAP "clapcap" false Route.MODEL_PATH])
  ∧ (RouteApp.process_audio sample_runtime wav_upload None
       (mkProcess (Bound (Some captioning_model))
          {[ "OMP_NUM_THREADS" := "1"; "MKL_NUM_THREADS" := "1" ]}
          {[ Route.MODEL_PATH := [Byte.x50; Byte.x4b; Byte.x03] ]})).1.1
    ≠ Raise (HTTPException 503 "Model not initialized. Please try again later.").
Proof.
  assert (Hrun : RouteApp.lifespan_startup online_runtime cpu_torch fresh_process
                 = (Return tt,
                    mkProcess (Bound (Some captioning_model))
                      {[ "OMP_NUM_THREADS" := "1"; "MKL_NUM_THREADS" := "1" ]}
                      {[ Route.MODEL_PATH := [Byte.x50; Byte.x4b; Byte.x03] ]},
                    [LvIO (EvHttpGet (Some Route.MODEL_URL));
                     LvIO (EvOpenW Route.MODEL_PATH);
                     LvIO (EvWrite Route.MODEL_PATH [Byte.x50; Byte.x4b]);
                     LvIO (EvWrite Route.MODEL_PATH [Byte.x03]);
                     LvSetNumThreads 1; LvNewCLAP "clapcap" false Route.MODEL_PATH]))
    by (vm_compute; reflexivity).
  split; [exact Hrun|].
  exact (proj1 (route_lifespan_startup_opens_gate _ _ _ _ _ Hrun)
           sample_runtime wav_upload None).
Defined.

(** X23. When [load_model] of [main.py] fails while a model is loaded (a
    reload), the old model is gone and the global name is deleted: the
    next request does not get 503 but fails with [NameError]. *)
Theorem main_failed_reload_unbinds_model torch ps ps' evs old :
  clap_model ps = Bound (Some old) →
  MainApp.load_model torch ps = (Return false, ps', evs) →
  clap_model ps' = Unbound
  ∧ ∀ rt file,
      (MainApp.process_audio rt file ps').1.1
      = Raise (PyException "NameError" "name 'clap_model' is not defined").
Proof.
  intros Hold. unfold MainApp.load_model. lrun_unfold.
  lcases; intros [= <- <-]; cbn [clap_model]; (split; [done|]);
    intros rt file; unfold MainApp.process_audio; by lrun.
Qed.

Lemma main_failed_reload_unbinds_model_witness :
  MainApp.load_model broken_torch (mkProcess (Bound (Some captioning_model)) ∅ ∅)
  = (Return false,
     mkProcess Unbound {[ "OMP_NUM_THREADS" := "1"; "MKL_NUM_THREADS" := "1" ]} ∅,
     [LvGcCollect; LvEmptyCache; LvSetNumThreads 1;
      LvNewCLAP "clapcap" false "./clapcap_weights_2023.pth"])
  ∧ (MainApp.process_audio sample_runtime wav_upload
       (mkProcess Unbound {[ "OMP_NUM_THREADS" := "1"; "MKL_NUM_THREADS" := "1" ]} ∅)).1.1
    = Raise (PyException "NameError" "name 'clap_model' is not defined").
Proof.
  assert (Hrun : MainApp.load_model broken_torch
                   (mkProcess (Bound (Some captioning_model)) ∅ ∅)
                 = (Return false,
                    mkProcess Unbound
                      {[ "OMP_NUM_THREADS" := "1"; "MKL_NUM_THREADS" := "1" ]} ∅,
                    [LvGcCollect; LvEmptyCache; LvSetNumThreads 1;
                     LvNewCLAP "clapcap" false "./clapcap_weights_2023.pth"]))
    by (vm_compute; reflexivity).
  split; [exact Hrun|].
  exact (proj2 (main_failed_reload_unbinds_model broken_torch
                  (mkProcess (Bound (Some captioning_model)) ∅ ∅) _ _ captioning_model
                  eq_refl Hrun)
           sample_runtime wav_upload).
Defined.

(** X24. The health endpoint of [route.py] and the gate of its
    [process_audio] agree: in a process whose global is bound,
    [model_loaded] is false exactly when a request is answered with 503.
    The endpoint changes nothing and its status is [healthy] either way. *)
Theorem route_health_check_agrees_with_gate rt torch file industry ps v :
  clap_model ps = Bound v →
  ∃ h, RouteApp.health_check torch ps = (Return h, ps, [])
       ∧ RouteApp.health_status h = "healthy"
       ∧ (RouteApp.model_loaded h = false
          ↔ (RouteApp.process_audio rt file industry ps).1.1
            = Raise (HTTPException 503 "Model not initialized. Please try again later.")).
Proof.
  intros Hv. rewrite (route_app_process_audio_bound _ _ _ _ _ Hv).
  unfold RouteApp.health_check. lrun. eexists. split; [reflexivity|]. split; [done|].
  cbn. destruct v as [m|]; [|done]. split; [done|].
  intros H. apply route_raises_generic_error in H as [cause [=]].
Qed.

Lemma route_health_check_agrees_with_gate_witness :
  ∃ h, RouteApp.health_check cpu_torch fresh_process = (Return h, fresh_process, [])
       ∧ RouteApp.health_status h = "healthy"
       ∧ (RouteApp.model_loaded h = false
          ↔ (RouteApp.process_audio sample_runtime wav_upload None fresh_process).1.1
            = Raise (HTTPException 503 "Model not initialized. Please try again later.")).
Proof.
  exact (route_health_check_agrees_with_gate sample_runtime cpu_torch wav_upload None
           fresh_process None eq_refl).
Defined.

(** X25. When the weight file is missing and the download fails,
    [load_model] of [route.py] returns [False] without building a model:
    the process is as it was, and the request to the release URL is the
    only thing that happened. *)
Theorem route_load_model_stops_at_failed_download rt torch ps e :
  clap_model ps = Bound None →
  disk ps !! Route.MODEL_PATH = None →
  http rt Route.MODEL_URL = HttpFails e →
  RouteApp.load_model rt torch ps
  = (Return false, ps, [LvIO (EvHttpGet (Some Route.MODEL_URL))]).
Proof.
  destruct ps as [g env d]. cbn [clap_model disk]. intros -> Habsent Hhttp.
  unfold RouteApp.load_model. lrun.
  rewrite route_download_model_cases. unfold route_download_result, route_download_error.
  cbn [files]. by rewrite Habsent, Hhttp.
Qed.

Lemma route_load_model_stops_at_failed_download_witness :
  RouteApp.load_model sample_runtime cpu_torch fresh_process
  = (Return false, fresh_process, [LvIO (EvHttpGet (Some Route.MODEL_URL))]).
Proof.
  exact (route_load_model_stops_at_failed_download sample_runtime cpu_torch fresh_process
           (PyException "ConnectionError" "Network is unreachable")
           eq_refl eq_refl eq_refl).
Defined.

(** ** The Streamlit handlers *)

(** Runs a handler along the answers of its collaborators, one case each. *)
Ltac mcases :=
  repeat
    (repeat run_step;
     match goal with
     | |- context [match mkstemp_inner ?fs ?d ?s ?n ?r with _ => _ end] =>
         let Hp := fresh "Hp" in
         destruct (mkstemp_inner fs d s n r) eqn:Hp;
         [pose proof (mkstemp_inner_spec _ _ _ _ _ _ Hp) as [? _]|]
     | |- context [match content ?f with _ => _ end] => destruct (content f) eqn:?
     | |- context [match generate_caption ?m ?p ?fs ?ps with _ => _ end] =>
         destruct (generate_caption m p fs ps) eqn:?
     | |- context [match predict ?m ?p ?fs with _ => _ end] =>
         destruct (predict m p fs) eqn:?
     | |- context [if py_bool ?c then _ else _] => destruct (py_bool c) eqn:?
     | |- context [if malformed ?c then _ else _] => destruct (malformed c) eqn:?
     | |- context [match py_getitem0 ?c with _ => _ end] => destruct (py_getitem0 c) eqn:?
     end).

(** X27. When [process_audio_streamlit] returns something other than
    [None], the model was there and answered with a value that is true in
    Python's sense, the result is element 0 of that answer, no error was
    shown, and the scratch file is gone: the files are what they were. *)
Theorem streamlit_process_audio_result session_model rt file st v st' evs :
  StreamlitApp.process_audio_streamlit session_model rt file st = (Return v, st', evs) →
  v ≠ PyNone →
  files st' = files st
  ∧ (∀ msg, EvStError msg ∉ evs)
  ∧ ∃ m p fs captions,
      session_model = Some m
      ∧ generate_caption m [p] fs (mkParams true 3 67 (Qmake 1 100)) = Return captions
      ∧ py_bool captions = true
      ∧ py_getitem0 captions = Return v.
Proof.
  unfold StreamlitApp.process_audio_streamlit, StreamlitApp.session_generate_caption.
  destruct session_model as [m|]; run_unfold; mcases; intros [= <- <- <-] Hv;
    try done.
  split; [cbn [files]; files_eq|]. split.
  - intros msg Hin. elem_of_inv Hin.
  - eexists m, _, _, _. split; [done|]. split; [eassumption|]. by split.
Qed.

Lemma streamlit_process_audio_result_witness :
  StreamlitApp.process_audio_streamlit (Some captioning_model) sample_runtime wav_upload
    empty_state
  = (Return (PyStr "a dog barking"), mkState ∅ (Some "/tmp/tmpk3x9q2ab.wav") None,
     [EvMkTemp "/tmp/tmpk3x9q2ab.wav"; EvReadUpload; EvWrite "/tmp/tmpk3x9q2ab.wav" riff;
      EvGenerate ["/tmp/tmpk3x9q2ab.wav"] (mkParams true 3 67 (Qmake 1 100));
      EvUnlink "/tmp/tmpk3x9q2ab.wav"])
  ∧ files (mkState ∅ (Some "/tmp/tmpk3x9q2ab.wav") None) = files empty_state.
Proof.
  assert (Hrun : StreamlitApp.process_audio_streamlit (Some captioning_model)
                   sample_runtime wav_upload empty_state
                 = (Return (PyStr "a dog barking"),
                    mkState ∅ (Some "/tmp/tmpk3x9q2ab.wav") None,
                    [EvMkTemp "/tmp/tmpk3x9q2ab.wav"; EvReadUpload;
                     EvWrite "/tmp/tmpk3x9q2ab.wav" riff;
                     EvGenerate ["/tmp/tmpk3x9q2ab.wav"] (mkParams true 3 67 (Qmake 1 100));
                     EvUnlink "/tmp/tmpk3x9q2ab.wav"]))
    by (vm_compute; reflexivity).
  split; [exact Hrun|].
  refine (proj1 (streamlit_process_audio_result _ _ _ _ _ _ _ Hrun _)).
  discriminate.
Defined.

(** X29. When [process_audio] of [src/api/python/streamlit_app.py] returns
    something other than [None], it is what [model.predict] returned for
    the scratch file, no error was shown and the scratch file is gone. *)
Theorem api_streamlit_process_audio_result session_model rt file st v st' evs :
  ApiStreamlit.process_audio session_model rt file st = (Return v, st', evs) →
  v ≠ PyNone →
  files st' = files st
  ∧ (∀ msg, EvStError msg ∉ evs)
  ∧ ∃ m p fs, session_model = Some m ∧ EvPredict p ∈ evs ∧ predict m p fs = Return v.
Proof.
  unfold ApiStreamlit.process_audio, ApiStreamlit.session_predict.
  destruct session_model as [m|]; run_unfold; mcases; intros [= <- <- <-] Hv;
    try done.
  split; [cbn [files]; files_eq|]. split.
  - intros msg Hin. elem_of_inv Hin.
  - eexists m, _, _. split; [done|]. split; [|eassumption]. do 3 right. left.
Qed.

Lemma api_streamlit_process_audio_result_witness :
  ApiStreamlit.process_audio (Some sample_clapcap) sample_runtime wav_upload empty_state
  = (Return (PyStr "a dog barking"), mkState ∅ (Some "/tmp/tmpk3x9q2ab.wav") None,
     [EvMkTemp "/tmp/tmpk3x9q2ab.wav"; EvReadUpload; EvWrite "/tmp/tmpk3x9q2ab.wav" riff;
      EvPredict "/tmp/tmpk3x9q2ab.wav"; EvUnlink "/tmp/tmpk3x9q2ab.wav"])
  ∧ files (mkState ∅ (Some "/tmp/tmpk3x9q2ab.wav") None) = files empty_state.
Proof.
  assert (Hrun : ApiStreamlit.process_audio (Some sample_clapcap) sample_runtime wav_upload
                   empty_state
                 = (Return (PyStr "a dog barking"),
                    mkState ∅ (Some "/tmp/tmpk3x9q2ab.wav") None,
                    [EvMkTemp "/tmp/tmpk3x9q2ab.wav"; EvReadUpload;
                     EvWrite "/tmp/tmpk3x9q2ab.wav" riff;
                     EvPredict "/tmp/tmpk3x9q2ab.wav"; EvUnlink "/tmp/tmpk3x9q2ab.wav"]))
    by (vm_compute; reflexivity).
  split; [exact Hrun|].
  refine (proj1 (api_streamlit_process_audio_result _ _ _ _ _ _ _ Hrun _)).
  discriminate.
Defined.

(** X30. Whenever the model returned, also with an answer that fails the
    validation, [process_audio] of [main.py] has deleted its scratch file
    exactly once and the files are what they were before the call. *)
Theorem main_process_audio_deletes_scratch_file_after_model m rt file st ct p data captions :
  content_type file = Some ct → startswith ct "audio/" = true →
  mkstemp_inner (files st) (tmpdir rt) ".wav" (tmp_names rt) (os_open_error rt) = Return p →
  content file = Return data →
  generate_caption m [p] (<[p := data]> (files st)) (mkParams true 3 67 (Qmake 1 100))
  = Return captions →
  ∃ r st' evs,
    Main.process_audio (Some m) rt file st = (r, st', evs)
    ∧ files st' = files st ∧ unlink_count p evs = 1%nat.
Proof. apply main_scratch_file_removed_when_model_returns. Qed.

Lemma main_process_audio_deletes_scratch_file_after_model_witness :
  ∃ r st' evs,
    Main.process_audio (Some silent_model) sample_runtime wav_upload empty_state
    = (r, st', evs)
    ∧ files st' = files empty_state ∧ unlink_count "/tmp/tmpk3x9q2ab.wav" evs = 1%nat.
Proof.
  exact (main_process_audio_deletes_scratch_file_after_model silent_model sample_runtime
           wav_upload empty_state "audio/wav" "/tmp/tmpk3x9q2ab.wav" riff (PyList [])
           eq_refl eq_refl eq_refl eq_refl eq_refl).
Defined.
